(** * circle-pinger: probe contract, scheduler loop and running statistics

    A shallow embedding of the Go packages [pinger], [tcp], [udp], [http]
    and [meta], followed by the properties proved about them.

    Conventions.
    - [time.Duration] and Go's [int] are 64-bit two's-complement integers.
      They are carried by [Z]; every arithmetic operation of the source is
      followed by [wrap64].
    - An [error] value is a tree: sentinel leaves and the wrappers the
      source builds with [fmt.Errorf("...%w")], [*net.OpError] and
      [*url.Error].  [nil] is [None].
    - The network is an oracle: every blocking call of the source takes a
      latency and an outcome from an environment record.  A call that is
      handed a [context.Context] is cut short when the context is done; a
      call that is not handed one runs for its whole latency. *)

From Stdlib Require Import ZArith String Ascii List Bool Lia.
From Stdlib Require Import Numbers.DecimalString.
From stdpp Require Import base gmap strings list sorting.

Local Open Scope Z_scope.

(* ===================================================================== *)
(** ** Machine integers *)
(* ===================================================================== *)

Module GoInt.

Definition MaxInt64 : Z := 2 ^ 63 - 1.
Definition MinInt64 : Z := - 2 ^ 63.

(** Two's-complement reduction to 64 bits. *)
Definition wrap64 (z : Z) : Z := (z + 2 ^ 63) mod 2 ^ 64 - 2 ^ 63.

(** Reduction to an unsigned 16-bit value ([uint16] arithmetic). *)
Definition wrap16 (z : Z) : Z := z mod 2 ^ 16.

Definition in_int64 (z : Z) : Prop := MinInt64 <= z <= MaxInt64.

Definition add64 (a b : Z) : Z := wrap64 (a + b).
Definition sub64 (a b : Z) : Z := wrap64 (a - b).

(** Go's [/] on signed integers truncates toward zero.  Every division of
    the source is guarded against a zero divisor. *)
Definition div64 (a b : Z) : Z := wrap64 (Z.quot a b).

(** [strconv.Itoa] and the [%d] verb. *)
Definition Itoa (z : Z) : string := NilZero.string_of_int (Z.to_int z).

End GoInt.

(* ===================================================================== *)
(** ** Error values *)
(* ===================================================================== *)

Module errors.

Inductive error : Type :=
| context_Canceled
| context_DeadlineExceeded
| os_ErrDeadlineExceeded
| New (msg : string)
    (* any other leaf error, identified by its message *)
| Errorf_w (prefix : string) (err : error)
    (* fmt.Errorf(prefix + "%w", err) *)
| net_OpError (Op Net : string) (Addr : option string) (Err : error)
| url_Error (Op URL : string) (Err : error).

Definition error_eq_dec (a b : error) : {a = b} + {a <> b}.
Proof.
  decide equality; try apply string_dec.
  decide equality; apply string_dec.
Defined.

(** [err.Error()]. *)
Fixpoint Error (e : error) : string :=
  match e with
  | context_Canceled => "context canceled"
  | context_DeadlineExceeded => "context deadline exceeded"
  | os_ErrDeadlineExceeded => "i/o timeout"
  | New msg => msg
  | Errorf_w prefix err => prefix +:+ Error err
  | net_OpError Op Net Addr Err =>
      Op +:+ (if String.eqb Net "" then "" else " " +:+ Net)
         +:+ (match Addr with Some a => " " +:+ a | None => "" end)
         +:+ ": " +:+ Error Err
  | url_Error Op URL Err => Op +:+ " " +:+ URL +:+ ": " +:+ Error Err
  end.

(** [errors.Unwrap]. *)
Definition Unwrap (e : error) : option error :=
  match e with
  | Errorf_w _ err => Some err
  | net_OpError _ _ _ err => Some err
  | url_Error _ _ err => Some err
  | _ => None
  end.

(** [errors.Is]: compare, then follow the [Unwrap] chain. *)
Fixpoint Is (err target : error) : bool :=
  if error_eq_dec err target then true
  else match err with
       | Errorf_w _ inner => Is inner target
       | net_OpError _ _ _ inner => Is inner target
       | url_Error _ _ inner => Is inner target
       | _ => false
       end.

End errors.

(* ===================================================================== *)
(** ** Clock and contexts *)
(* ===================================================================== *)

Module time.

(** A reading of the monotonic clock, in nanoseconds. *)
Definition Time := Z.

(** [a.Sub(b)] saturates at the ends of [Duration]. *)
Definition Sub (a b : Time) : Z :=
  if a - b >? GoInt.MaxInt64 then GoInt.MaxInt64
  else if a - b <? GoInt.MinInt64 then GoInt.MinInt64
  else a - b.

Definition Second : Z := 1000000000.

End time.

Module context.

Import errors.

(** A context is described by the instants at which it would be
    cancelled by its owner and at which its deadline expires. *)
Record Context := {
  cancelAt : option time.Time;
  deadline : option time.Time
}.

Definition Background : Context := {| cancelAt := None; deadline := None |}.

Definition min_opt (a b : option Z) : option Z :=
  match a, b with
  | Some x, Some y => Some (Z.min x y)
  | Some x, None => Some x
  | None, o => o
  end.

(** [context.WithTimeout(parent, d)] called at instant [now]. *)
Definition WithTimeout (parent : Context) (now : time.Time) (d : Z) : Context :=
  {| cancelAt := cancelAt parent;
     deadline := min_opt (deadline parent) (Some (now + d)) |}.

(** The instant at which [ctx.Done()] is closed, if ever. *)
Definition doneAt (ctx : Context) : option time.Time :=
  min_opt (cancelAt ctx) (deadline ctx).

(** [ctx.Err()] once the context is done. *)
Definition Err (ctx : Context) : error :=
  match cancelAt ctx, deadline ctx with
  | Some c, Some d => if c <=? d then context_Canceled else context_DeadlineExceeded
  | Some _, None => context_Canceled
  | None, _ => context_DeadlineExceeded
  end.

(** A blocking call that honours [ctx]: started at [now], it would take
    [latency] and yield [r]; when the context is done first, it returns
    at that instant (or at once when already done) with [onDone]. *)
Definition await {A} (ctx : Context) (now : time.Time) (latency : Z)
           (r : A) (onDone : error -> A) : time.Time * A :=
  match doneAt ctx with
  | Some d => if d <? now + latency then (Z.max now d, onDone (Err ctx))
              else (now + latency, r)
  | None => (now + latency, r)
  end.

End context.

(* ===================================================================== *)
(** ** Values carried by a [Stats] *)
(* ===================================================================== *)

Module tls.

Definition VersionTLS10 : Z := 769.  (* 0x0301 *)

Record Certificate := {
  cert_DNSNames : list string;
  cert_NotBefore : Z;     (* seconds since the epoch *)
  cert_NotAfter : Z
}.

Record ConnectionState := {
  Version : Z;            (* uint16 *)
  ServerName : string;
  PeerCertificates : list Certificate
}.

Definition zeroState : ConnectionState :=
  {| Version := 0; ServerName := ""; PeerCertificates := [] |}.

End tls.

Module meta.

Record Meta := {
  Version : Z;
  DNSNames : list string;
  ServerName : string;
  NotBefore : Z;
  NotAfter : Z
}.

End meta.

Module trace.

(** [http.Trace].  A [time.Time] field still holding its zero value is
    [None]. *)
Record Trace := {
  DNSDuration : Z;
  connectStart : option time.Time;
  ConnectDuration : Z;
  tlsStart : option time.Time;
  tls : bool;
  TLSDuration : Z;
  WroteRequestDuration : Z;
  WaitResponseDuration : Z;
  BodyDuration : Z;
  tlsState : tls.ConnectionState;
  address : string
}.

(** [Trace{}]. *)
Definition zero : Trace :=
  {| DNSDuration := 0; connectStart := None; ConnectDuration := 0;
     tlsStart := None; tls := false; TLSDuration := 0;
     WroteRequestDuration := 0; WaitResponseDuration := 0;
     BodyDuration := 0; tlsState := tls.zeroState; address := "" |}.

End trace.

(* ===================================================================== *)
(** ** Package pinger *)
(* ===================================================================== *)

Module pinger.

Import GoInt.

Definition DefaultCounter : Z := 4.
Definition DefaultInterval : Z := time.Second.
Definition DefaultTimeout : Z := time.Second * 5.

(** [Option]; the resolver and the proxy only select which peer the
    environment answers for and are left to the environment. *)
Record Option := {
  Timeout : Z;
  UA : string
}.

(** The [fmt.Stringer] values the probes store in [Stats.Meta]. *)
Inductive Stringer : Type :=
| Int (i : Z)                          (* http.Int *)
| StringerFunc (f : unit -> string).   (* pinger.StringerFunc *)

Definition String (v : Stringer) : string :=
  match v with
  | Int i => Itoa i
  | StringerFunc f => f tt
  end.

(** The [fmt.Stringer] values the probes store in [Stats.Extra]. *)
Inductive ExtraValue : Type :=
| ExtraMeta (m : meta.Meta)            (* meta.Meta *)
| ExtraBuffer (s : string)             (* *bytes.Buffer *)
| ExtraTrace (t : trace.Trace).        (* *http.Trace *)

(** [Stats].  A map value may be the nil interface ([None]); a nil map
    and an empty map are both [∅]. *)
Record Stats := {
  Connected : bool;
  Error : option errors.error;
  Duration : Z;
  DNSDuration : Z;
  Address : string;
  Meta : gmap string (option Stringer);
  Extra : option ExtraValue
}.

(** *** FormatMeta *)

(** [sort.Strings]: ascending in the byte-wise lexicographic order of
    Go's [<] on strings, which is [String.le]. *)
Definition sort_Strings (keys : list string) : list string :=
  merge_sort String.le keys.

(** The second loop of [FormatMeta]: [i] is the loop index, [builder]
    the contents of the [strings.Builder] so far. *)
Fixpoint writePairs (m : gmap string (option Stringer)) (i : nat)
         (keys : list string) (builder : string) : string :=
  match keys with
  | [] => builder
  | key :: rest =>
      let builder := if (0 <? i)%nat then builder +:+ " " else builder in
      let builder := builder +:+ key in
      let builder := builder +:+ "=" in
      let builder :=
        match m !! key with
        | Some (Some val) => builder +:+ String val
        | _ => builder +:+ "<nil>"
        end in
      writePairs m (S i) rest builder
  end.

(** [FormatMeta].  [order] is the sequence in which [range s.Meta]
    yields the keys; Go leaves it unspecified.  The first loop over the
    sorted keys only sizes the builder. *)
Definition FormatMeta (order : list string) (s : Stats) : string :=
  if (size (Meta s) =? 0)%nat then ""
  else
    let keys := sort_Strings order in
    writePairs (Meta s) 0 keys "".

(** [order] is a possible iteration order of the map [m]. *)
Definition range_order (m : gmap string (option Stringer))
           (order : list string) : Prop :=
  order ≡ₚ (map_to_list m).*1.

(** *** Pinger *)

Record Pinger := {
  url : string;
  interval : Z;
  counter : Z;
  timeout : Z;
  minDuration : Z;
  maxDuration : Z;
  totalDuration : Z;
  total : Z;
  failedTotal : Z;
  (* the lines written to [out], each given by the [Stats] it renders *)
  out : list Stats
}.

Definition NewPinger (url : string) (interval counter timeout : Z) : Pinger :=
  let interval := if interval <=? 0 then DefaultInterval else interval in
  let timeout := if timeout <=? 0 then DefaultTimeout else timeout in
  {| url := url; interval := interval; counter := counter;
     timeout := timeout;
     minDuration := 0; maxDuration := 0; totalDuration := 0;
     total := 0; failedTotal := 0; out := [] |}.

Definition set_minDuration (p : Pinger) (v : Z) : Pinger :=
  {| url := url p; interval := interval p; counter := counter p;
     timeout := timeout p; minDuration := v;
     maxDuration := maxDuration p; totalDuration := totalDuration p;
     total := total p; failedTotal := failedTotal p; out := out p |}.

Definition set_maxDuration (p : Pinger) (v : Z) : Pinger :=
  {| url := url p; interval := interval p; counter := counter p;
     timeout := timeout p; minDuration := minDuration p;
     maxDuration := v; totalDuration := totalDuration p;
     total := total p; failedTotal := failedTotal p; out := out p |}.

Definition set_totalDuration (p : Pinger) (v : Z) : Pinger :=
  {| url := url p; interval := interval p; counter := counter p;
     timeout := timeout p; minDuration := minDuration p;
     maxDuration := maxDuration p; totalDuration := v;
     total := total p; failedTotal := failedTotal p; out := out p |}.

Definition set_total (p : Pinger) (v : Z) : Pinger :=
  {| url := url p; interval := interval p; counter := counter p;
     timeout := timeout p; minDuration := minDuration p;
     maxDuration := maxDuration p; totalDuration := totalDuration p;
     total := v; failedTotal := failedTotal p; out := out p |}.

Definition set_failedTotal (p : Pinger) (v : Z) : Pinger :=
  {| url := url p; interval := interval p; counter := counter p;
     timeout := timeout p; minDuration := minDuration p;
     maxDuration := maxDuration p; totalDuration := totalDuration p;
     total := total p; failedTotal := v; out := out p |}.

Definition write_out (p : Pinger) (stats : Stats) : Pinger :=
  {| url := url p; interval := interval p; counter := counter p;
     timeout := timeout p; minDuration := minDuration p;
     maxDuration := maxDuration p; totalDuration := totalDuration p;
     total := total p; failedTotal := failedTotal p;
     out := out p ++ [stats] |}.

(** [logStats]: the counters, then the line for [stats] on [p.out] (a
    writer that is not nil). *)
Definition logStats (p : Pinger) (stats : Stats) : Pinger :=
  let p :=
    if Connected stats then
      let p := if Duration stats <? minDuration p
               then set_minDuration p (Duration stats) else p in
      let p := if Duration stats >? maxDuration p
               then set_maxDuration p (Duration stats) else p in
      set_totalDuration p (add64 (totalDuration p) (Duration stats))
    else p in
  let p :=
    match Error stats with
    | Some err =>
        if negb (errors.Is err errors.context_Canceled)
        then set_failedTotal p (add64 (failedTotal p) 1)
        else p
    | None => p
    end in
  write_out p stats.

(** One iteration of the loop of [Ping] once the probe has returned
    [stats]: [p.logStats(stats); p.total++]. *)
Definition attempt (p : Pinger) (stats : Stats) : Pinger :=
  let p := logStats p stats in
  set_total p (add64 (total p) 1).

(** The loop of [Ping].  [results] are the values the probe returns to
    the successive attempts; the list ends where the shared context is
    cancelled ([Stop()]).  The loop leaves early when the counter is
    reached. *)
Fixpoint loop (p : Pinger) (results : list Stats) : Pinger :=
  match results with
  | [] => p
  | stats :: rest =>
      let p := attempt p stats in
      if (counter p >? 0) && (total p >=? counter p) then p
      else loop p rest
  end.

Definition Ping (p : Pinger) (results : list Stats) : Pinger :=
  let p := set_minDuration p MaxInt64 in
  loop p results.

(** *** Summarize *)

Record summaryData := {
  sd_URL : string;
  sd_Total : Z;
  sd_SuccessTotal : Z;
  sd_FailedTotal : Z;
  sd_MinDuration : Z;
  sd_MaxDuration : Z;
  sd_AvgDuration : Z
}.

Definition summarize (p : Pinger) : summaryData :=
  let MinDuration := minDuration p in
  let MaxDuration := maxDuration p in
  let AvgDuration := 0 in
  let '(MinDuration, MaxDuration, AvgDuration) :=
    if total p >? 0
    then (MinDuration, MaxDuration, div64 (totalDuration p) (total p))
    else (0, 0, AvgDuration) in
  {| sd_URL := url p;
     sd_Total := total p;
     sd_SuccessTotal := sub64 (total p) (failedTotal p);
     sd_FailedTotal := failedTotal p;
     sd_MinDuration := MinDuration;
     sd_MaxDuration := MaxDuration;
     sd_AvgDuration := AvgDuration |}.

Definition nl : string := String.String (ascii_of_nat 10) "".

Section Rendering.

(** [time.Duration.String], from Go's standard library. *)
Variable Duration_String : Z -> string.

(** Execution of [summaryTpl] on the data; [{{if .Total}}] holds for
    a non-zero integer. *)
Definition executeSummaryTpl (d : summaryData) : string :=
  nl +:+ "Ping statistics " +:+ sd_URL d +:+ nl
     +:+ "    " +:+ Itoa (sd_Total d) +:+ " probes sent." +:+ nl
     +:+ "    " +:+ Itoa (sd_SuccessTotal d) +:+ " successful, "
     +:+ Itoa (sd_FailedTotal d) +:+ " failed." +:+ nl
     +:+ "Approximate trip times:"
     +:+ (if negb (sd_Total d =? 0)
          then nl +:+ "    Minimum = " +:+ Duration_String (sd_MinDuration d)
                  +:+ ", Maximum = " +:+ Duration_String (sd_MaxDuration d)
                  +:+ ", Average = " +:+ Duration_String (sd_AvgDuration d)
          else nl +:+ "    No probes completed successfully.").

(** [Summarize]: the text written to [p.out]. *)
Definition Summarize (p : Pinger) : string :=
  executeSummaryTpl (summarize p).

End Rendering.

(** *** Result *)

(** [Result], without the pointer to its [Target]. *)
Record Result := {
  Counter : Z;
  SuccessCounter : Z;
  MinDuration : Z;
  MaxDuration : Z;
  TotalDuration : Z
}.

Definition Avg (result : Result) : Z :=
  if SuccessCounter result =? 0 then 0
  else div64 (TotalDuration result) (SuccessCounter result).

Definition Failed (result : Result) : Z :=
  sub64 (Counter result) (SuccessCounter result).

End pinger.

(* ===================================================================== *)
(** ** The network seen by a probe *)
(* ===================================================================== *)

Module net.

Import errors.

(** Outcome of a call that returns [(value, error)]. *)
Inductive outcome (A : Type) : Type :=
| Ok (a : A)
| Fail (e : error).
Arguments Ok {A} a.
Arguments Fail {A} e.

Definition isOk {A} (r : outcome A) : bool :=
  match r with Ok _ => true | Fail _ => false end.

(** [net.JoinHostPort]. *)
Definition JoinHostPort (host port : string) : string :=
  match String.index 0 ":" host with
  | Some _ => "[" +:+ host +:+ "]:" +:+ port
  | None => host +:+ ":" +:+ port
  end.

(** A read on a connection whose read deadline is [readDeadline]: it
    honours the deadline only, not the cancellation of a context. *)
Definition readWithDeadline {A} (readDeadline : time.Time) (now : time.Time)
           (latency : Z) (r : outcome A) : time.Time * outcome A :=
  if readDeadline <? now + latency
  then (Z.max now readDeadline,
        Fail (net_OpError "read" "udp" None os_ErrDeadlineExceeded))
  else (now + latency, r).

End net.

Module httptrace.

(** The hooks of [httptrace.ClientTrace] that the source installs. *)
Inductive Event : Type :=
| DNSStart
| DNSDone
| ConnectStart (network addr : string)
| ConnectDone (network addr : string) (err : option errors.error)
| TLSHandshakeStart
| TLSHandshakeDone (state : tls.ConnectionState) (err : option errors.error)
| WroteRequest
| GotFirstResponseByte.

(** The hooks fired by one call: each with the delay after the start
    of the call at which it fires. *)
Definition Schedule := list (Z * Event).

(** Run the hooks of [sched] that fire no later than [upto], for a call
    started at [from]; [hook now ev] is the installed [ClientTrace]. *)
Fixpoint fire {S : Type} (hook : time.Time -> Event -> S -> S)
         (from upto : time.Time) (sched : Schedule) (s : S) : S :=
  match sched with
  | [] => s
  | (delay, ev) :: rest =>
      if from + delay <=? upto
      then fire hook from upto rest (hook (from + delay) ev s)
      else fire hook from upto rest s
  end.

End httptrace.

(** [time.Since(t)] at instant [now]; the zero [time.Time] lies further
    back than a [Duration] can hold. *)
Definition time_Since (now : time.Time) (t : option time.Time) : Z :=
  match t with
  | Some t0 => time.Sub now t0
  | None => GoInt.MaxInt64
  end.

(* ===================================================================== *)
(** ** Package tcp *)
(* ===================================================================== *)

Module tcp.

Import GoInt errors context net.

Record Ping := {
  option_ : pinger.Option;
  host : string;
  port : Z;
  tls : bool
}.

Definition New (host : string) (port : Z) (op : pinger.Option) (tls : bool) : Ping :=
  {| option_ := op; host := host; port := port; tls := tls |}.

(** A TLS connection: the peer address and the negotiated state. *)
Record tlsConn := {
  tlsRemoteAddr : string;
  tlsConnectionState : tls.ConnectionState
}.

(** What the peer at one address answers during one attempt.  The dialer
    of [New] carries no [Timeout] and no [Deadline]. *)
Record Env := {
  (* tls.DialWithDialer(p.dialer, "tcp", addr, cfg) *)
  tlsLatency : Z;
  tlsResult : outcome tlsConn;
  (* p.dialer.DialContext(ctx, "tcp", addr) *)
  dialLatency : Z;
  dialResult : outcome string;        (* conn.RemoteAddr().String() *)
  dialTrace : httptrace.Schedule;
  dialAddrWhenDone : option string    (* OpError.Addr when ctx ends the dial *)
}.

(** The network: who answers a dial of [address] on [network]. *)
Definition Network := string -> string -> Env.

(** [fmt.Sprintf("%s:%d", host, port)]. *)
Definition Sprintf_addr (host : string) (port : Z) : string :=
  host +:+ ":" +:+ Itoa port.

(** State touched by the [ClientTrace] closures. *)
Record hookState := {
  dnsStart : option time.Time;
  hs_DNSDuration : Z
}.

Definition hook (now : time.Time) (ev : httptrace.Event) (s : hookState) : hookState :=
  match ev with
  | httptrace.DNSStart =>
      {| dnsStart := Some now; hs_DNSDuration := hs_DNSDuration s |}
  | httptrace.DNSDone =>
      {| dnsStart := dnsStart s; hs_DNSDuration := time_Since now (dnsStart s) |}
  | _ => s
  end.

(** [tls.DialWithDialer(p.dialer, network, addr, cfg)]: it is not given
    [ctx]. *)
Definition DialWithDialer (network addr : string) (now : time.Time)
           (world : Network) : time.Time * outcome tlsConn :=
  let env := world network addr in
  (now + tlsLatency env, tlsResult env).

(** [p.dialer.DialContext(ctx, network, addr)], with the hooks it fires. *)
Definition DialContext (ctx : Context) (network addr : string)
           (now : time.Time) (world : Network) (s : hookState)
  : time.Time * outcome string * hookState :=
  let env := world network addr in
  let '(t, r) :=
    await ctx now (dialLatency env) (dialResult env)
          (fun e => Fail (net_OpError "dial" network (dialAddrWhenDone env) e)) in
  (t, r, httptrace.fire hook now t (dialTrace env) s).

(** What lines 59-77 leave in [conn], [err], [tlsConn], [tlsErr]. *)
Record dialed := {
  d_conn : option string;          (* remote address of [conn] *)
  d_err : option error;
  d_tlsConn : option tlsConn;
  d_tlsErr : option error
}.

(** [tlsConn != nil && len(state.PeerCertificates) > 0], with the state
    and [PeerCertificates[0]] when it holds. *)
Definition firstPeerCertificate (c : option tlsConn)
  : option (tls.ConnectionState * tls.Certificate) :=
  match c with
  | Some c =>
      match tls.PeerCertificates (tlsConnectionState c) with
      | cert :: _ => Some (tlsConnectionState c, cert)
      | [] => None
      end
  | None => None
  end.

(** The [%s] verb applied to an [error] that may be nil. *)
Definition Sprint_s (e : option error) : string :=
  match e with
  | Some e => Error e
  | None => "%!s(<nil>)"
  end.

(** Lines 39-44: the context of the attempt. *)
Definition attemptCtx (p : Ping) (ctx : Context) (now : time.Time) : Context :=
  let timeout := pinger.DefaultTimeout in
  let timeout := if pinger.Timeout (option_ p) >? 0
                 then pinger.Timeout (option_ p) else timeout in
  WithTimeout ctx now timeout.

(** [var dnsStart time.Time] and the zero [stats.DNSDuration]. *)
Definition initial : hookState := {| dnsStart := None; hs_DNSDuration := 0 |}.

Definition Ping_Ping (p : Ping) (ctx : Context) (now : time.Time)
           (world : Network) : time.Time * pinger.Stats :=
  let ctx := attemptCtx p ctx now in
  let hs := initial in
  let start := now in
  let '(t, d, hs) :=
    if tls p then
      match DialWithDialer "tcp" (Sprintf_addr (host p) (port p)) now world with
      | (t, Ok c) =>
          (t, {| d_conn := Some (tlsRemoteAddr c); d_err := None;
                 d_tlsConn := Some c; d_tlsErr := None |}, hs)
      | (t, Fail tlsErr) =>
          match DialContext ctx "tcp" (Sprintf_addr (host p) (port p))
                            t world hs with
          | (t, Ok a, hs) =>
              (t, {| d_conn := Some a; d_err := None;
                     d_tlsConn := None; d_tlsErr := Some tlsErr |}, hs)
          | (t, Fail e, hs) =>
              (t, {| d_conn := None; d_err := Some e;
                     d_tlsConn := None; d_tlsErr := Some tlsErr |}, hs)
          end
      end
    else
      match DialContext ctx "tcp" (Sprintf_addr (host p) (port p))
                        now world hs with
      | (t, Ok a, hs) =>
          (t, {| d_conn := Some a; d_err := None;
                 d_tlsConn := None; d_tlsErr := None |}, hs)
      | (t, Fail e, hs) =>
          (t, {| d_conn := None; d_err := Some e;
                 d_tlsConn := None; d_tlsErr := None |}, hs)
      end in
  let Duration := time_Since t (Some start) in
  let stats :=
    match d_err d with
    | Some err =>
        {| pinger.Connected := false;
           pinger.Error := Some err;
           pinger.Duration := Duration;
           pinger.DNSDuration := hs_DNSDuration hs;
           pinger.Address :=
             match err with
             | net_OpError _ _ (Some a) _ => a
             | _ => ""
             end;
           pinger.Meta := ∅;
           pinger.Extra := None |}
    | None =>
        {| pinger.Connected := true;
           pinger.Error := None;
           pinger.Duration := Duration;
           pinger.DNSDuration := hs_DNSDuration hs;
           pinger.Address := default "" (d_conn d);
           pinger.Meta := ∅;
           pinger.Extra :=
             match firstPeerCertificate (d_tlsConn d) with
             | Some (state, cert) =>
                 Some (pinger.ExtraMeta
                   {| meta.DNSNames := tls.cert_DNSNames cert;
                      meta.ServerName := tls.ServerName state;
                      meta.Version :=
                        wrap16 (tls.Version state - tls.VersionTLS10);
                      meta.NotBefore := tls.cert_NotBefore cert;
                      meta.NotAfter := tls.cert_NotAfter cert |})
             | None =>
                 if tls p then
                   Some (pinger.ExtraBuffer
                     ("TLS handshake failed, " +:+ Sprint_s (d_tlsErr d)))
                 else None
             end |}
    end in
  (t, stats).

End tcp.

(* ===================================================================== *)
(** ** Package udp *)
(* ===================================================================== *)

Module udp.

Import GoInt errors context net.

Record Ping := {
  option_ : option pinger.Option;
  host : string;
  port : Z
}.

Definition New (host : string) (port : Z) (op : option pinger.Option) : Ping :=
  let op := match op with
            | None => Some {| pinger.Timeout := 0; pinger.UA := "" |}
            | Some o => Some o
            end in
  {| option_ := op; host := host; port := port |}.

(** What the network answers during one attempt. *)
Record Env := {
  (* net.ParseIP(p.host), rendered by ip.String() *)
  ParseIP : string -> option string;
  (* resolver.LookupIP(pingCtx, "ip", p.host) *)
  lookupLatency : Z;
  lookupResult : outcome (list string);
  (* p.dialer.DialContext(pingCtx, "udp", targetAddr) *)
  dialLatency : Z;
  dialResult : outcome unit;
  (* conn.Write(sendData) *)
  writeLatency : Z;
  writeResult : outcome Z;
  (* conn.Read(readBuf) *)
  readLatency : Z;
  readResult : outcome Z
}.

Definition sendData : string := "ping".

(** The address resolution of lines 57-93: the instant it ends at, the
    DNS duration it records, and the resolved address or the error
    stored in [stats.Error]. *)
Definition resolve (p : Ping) (pingCtx : Context) (now : time.Time) (env : Env)
  : time.Time * Z * outcome string :=
  let startDNS := now in
  match ParseIP env (host p) with
  | Some ip => (now, 0, Ok ip)
  | None =>
      let '(t, r) :=
        await pingCtx now (lookupLatency env) (lookupResult env)
              (fun e => Fail e) in
      let DNSDuration := time_Since t (Some startDNS) in
      match r with
      | Fail lookupErr =>
          (t, DNSDuration, Fail (Errorf_w "dns lookup failed: " lookupErr))
      | Ok [] =>
          (t, DNSDuration,
           Fail (errors.New ("dns lookup returned no IP addresses for " +:+ host p)))
      | Ok (ip :: _) => (t, DNSDuration, Ok ip)
      end
  end.

Definition dial (pingCtx : Context) (now : time.Time) (env : Env)
  : time.Time * outcome unit :=
  await pingCtx now (dialLatency env) (dialResult env)
        (fun e => Fail (net_OpError "dial" "udp" None e)).

(** [conn.Write]: no write deadline is set. *)
Definition write (now : time.Time) (env : Env) : time.Time * outcome Z :=
  (now + writeLatency env, writeResult env).

(** [conn.Read] under the read deadline set at lines 116-121. *)
Definition read (readDeadline : time.Time) (now : time.Time) (env : Env)
  : time.Time * outcome Z :=
  readWithDeadline readDeadline now (readLatency env) (readResult env).

(** Lines 39-42: the timeout of the attempt. *)
Definition attemptTimeout (p : Ping) : Z :=
  let timeout := pinger.DefaultTimeout in
  match option_ p with
  | Some o => if pinger.Timeout o >? 0 then pinger.Timeout o else timeout
  | None => timeout
  end.

(** Lines 116-121: the read deadline, chosen at instant [now]. *)
Definition readDeadline (p : Ping) (pingCtx : Context) (now : time.Time)
  : time.Time :=
  match deadline pingCtx with
  | Some d => d
  | None => now + attemptTimeout p
  end.

Definition Ping_Ping (p : Ping) (ctx : Context) (now : time.Time) (env : Env)
  : time.Time * pinger.Stats :=
  let timeout := attemptTimeout p in
  let pingCtx := WithTimeout ctx now timeout in
  let stats := {| pinger.Connected := false; pinger.Error := None;
                  pinger.Duration := 0; pinger.DNSDuration := 0;
                  pinger.Address := ""; pinger.Meta := ∅;
                  pinger.Extra := None |} in
  let startTotal := now in
  let failWith (t : time.Time) (dns : Z) (addr : string) (e : error) :=
    (t, {| pinger.Connected := false; pinger.Error := Some e;
           pinger.Duration := time_Since t (Some startTotal);
           pinger.DNSDuration := dns; pinger.Address := addr;
           pinger.Meta := pinger.Meta stats;
           pinger.Extra := None |}) in
  match resolve p pingCtx now env with
  | (t, dns, Fail e) => failWith t dns "" e
  | (t, dns, Ok resolvedIP) =>
      let targetAddr := JoinHostPort resolvedIP (Itoa (port p)) in
      match dial pingCtx t env with
      | (t, Fail dialErr) =>
          failWith t dns targetAddr (Errorf_w "dial failed: " dialErr)
      | (t, Ok _) =>
          let readDeadline := readDeadline p pingCtx t in
          match write t env with
          | (t, Fail writeErr) =>
              failWith t dns targetAddr (Errorf_w "write failed: " writeErr)
          | (t, Ok _) =>
              let '(t, r) := read readDeadline t env in
              let Duration := time_Since t (Some startTotal) in
              let '(Connected, Error) :=
                match r with
                | Ok _ => (true, None)
                | Fail readErr =>
                    (false, Some (Errorf_w "read failed: " readErr))
                end in
              (t, {| pinger.Connected := Connected;
                     pinger.Error := Error;
                     pinger.Duration := Duration;
                     pinger.DNSDuration := dns;
                     pinger.Address := targetAddr;
                     pinger.Meta :=
                       <["sent" :=
                           Some (pinger.StringerFunc
                                   (fun _ => Itoa (Z.of_nat (String.length sendData))))]>
                         (pinger.Meta stats);
                     pinger.Extra := None |})
          end
      end
  end.

End udp.

(* ===================================================================== *)
(** ** Package http *)
(* ===================================================================== *)

Module http.

Import GoInt errors context net trace.

Definition MethodGet : string := "GET".

Record Ping := {
  trace_ : bool;
  option_ : option pinger.Option;
  method : string;
  url : string
}.

(** An [*http.Response], as far as [Ping] reads it. *)
Record Response := {
  StatusCode : Z
}.

(** What the network answers during one attempt. *)
Record Env := {
  (* http.NewRequest(method, url, nil), also with a context *)
  newRequestErr : option error;
  (* p.client.Do(req) *)
  doLatency : Z;
  doResult : outcome Response;
  doTrace : httptrace.Schedule;
  (* io.Copy(io.Discard, resp.Body) *)
  bodyLatency : Z;
  bodyN : Z;
  bodyErr : option error;
  bodyNWhenDone : Z      (* bytes copied when ctx ends the copy *)
}.

(** [New]; the transport and the client it configures are the
    environment of [Ping]. *)
Definition New (method url : string) (op : option pinger.Option)
           (trace : bool) (env : Env) : outcome Ping :=
  let op := match op with
            | None => Some {| pinger.Timeout := 0; pinger.UA := "" |}
            | Some o => Some o
            end in
  let method := if String.eqb method "" then MethodGet else method in
  match newRequestErr env with
  | Some err => Fail (Errorf_w "url or method is invalid: " err)
  | None =>
      Ok {| url := url; method := method; trace_ := trace; option_ := op |}
  end.

Section WithSplitHostPort.

(** [net.SplitHostPort], from Go's standard library: the host and the
    port, or [None] when it reports an error. *)
Variable SplitHostPort : string -> option (string * string).

(** The variables captured by the closures of [WithTrace], and the
    [Trace] they write to. *)
Record hookState := {
  t_ : Trace;
  dnsStart : option time.Time;
  hs_connectStart : option time.Time;
  hs_tlsStart : option time.Time;
  writeStart : option time.Time
}.

Definition withTrace (s : hookState) (t : Trace) : hookState :=
  {| t_ := t; dnsStart := dnsStart s;
     hs_connectStart := hs_connectStart s;
     hs_tlsStart := hs_tlsStart s; writeStart := writeStart s |}.

(** The hooks installed by [WithTrace], called at instant [start]. *)
Definition hook (start : time.Time) (now : time.Time)
           (ev : httptrace.Event) (s : hookState) : hookState :=
  let t := t_ s in
  match ev with
  | httptrace.DNSStart =>
      {| t_ := t; dnsStart := Some now;
         hs_connectStart := hs_connectStart s;
         hs_tlsStart := hs_tlsStart s; writeStart := writeStart s |}
  | httptrace.DNSDone =>
      withTrace s
        {| DNSDuration := time_Since now (dnsStart s);
           connectStart := connectStart t;
           ConnectDuration := ConnectDuration t;
           tlsStart := tlsStart t; tls := tls t;
           TLSDuration := TLSDuration t;
           WroteRequestDuration := WroteRequestDuration t;
           WaitResponseDuration := WaitResponseDuration t;
           BodyDuration := BodyDuration t;
           tlsState := tlsState t; address := address t |}
  | httptrace.ConnectStart network addr =>
      {| t_ :=
           {| DNSDuration := DNSDuration t;
              connectStart := Some now;
              ConnectDuration := ConnectDuration t;
              tlsStart := tlsStart t; tls := tls t;
              TLSDuration := TLSDuration t;
              WroteRequestDuration := WroteRequestDuration t;
              WaitResponseDuration := WaitResponseDuration t;
              BodyDuration := BodyDuration t;
              tlsState := tlsState t;
              address :=
                match SplitHostPort addr with
                | Some (host, _) => host
                | None => addr
                end |};
         dnsStart := dnsStart s;
         hs_connectStart := Some now;
         hs_tlsStart := hs_tlsStart s; writeStart := writeStart s |}
  | httptrace.ConnectDone network addr err =>
      withTrace s
        {| DNSDuration := DNSDuration t;
           connectStart := connectStart t;
           ConnectDuration := time_Since now (hs_connectStart s);
           tlsStart := tlsStart t; tls := tls t;
           TLSDuration := TLSDuration t;
           WroteRequestDuration := WroteRequestDuration t;
           WaitResponseDuration := WaitResponseDuration t;
           BodyDuration := BodyDuration t;
           tlsState := tlsState t; address := address t |}
  | httptrace.TLSHandshakeStart =>
      {| t_ :=
           {| DNSDuration := DNSDuration t;
              connectStart := connectStart t;
              ConnectDuration := ConnectDuration t;
              tlsStart := Some now; tls := true;
              TLSDuration := TLSDuration t;
              WroteRequestDuration := WroteRequestDuration t;
              WaitResponseDuration := WaitResponseDuration t;
              BodyDuration := BodyDuration t;
              tlsState := tlsState t; address := address t |};
         dnsStart := dnsStart s;
         hs_connectStart := hs_connectStart s;
         hs_tlsStart := Some now; writeStart := writeStart s |}
  | httptrace.TLSHandshakeDone state err =>
      withTrace s
        {| DNSDuration := DNSDuration t;
           connectStart := connectStart t;
           ConnectDuration := ConnectDuration t;
           tlsStart := tlsStart t; tls := tls t;
           TLSDuration := time_Since now (hs_tlsStart s);
           WroteRequestDuration := WroteRequestDuration t;
           WaitResponseDuration := WaitResponseDuration t;
           BodyDuration := BodyDuration t;
           tlsState := state; address := address t |}
  | httptrace.WroteRequest =>
      let elapsed := time_Since now (Some start) in
      {| t_ :=
           {| DNSDuration := DNSDuration t;
              connectStart := connectStart t;
              ConnectDuration := ConnectDuration t;
              tlsStart := tlsStart t; tls := tls t;
              TLSDuration := TLSDuration t;
              WroteRequestDuration :=
                sub64 (sub64 (sub64 elapsed (TLSDuration t))
                             (ConnectDuration t))
                      (DNSDuration t);
              WaitResponseDuration := WaitResponseDuration t;
              BodyDuration := BodyDuration t;
              tlsState := tlsState t; address := address t |};
         dnsStart := dnsStart s;
         hs_connectStart := hs_connectStart s;
         hs_tlsStart := hs_tlsStart s; writeStart := Some now |}
  | httptrace.GotFirstResponseByte =>
      withTrace s
        {| DNSDuration := DNSDuration t;
           connectStart := connectStart t;
           ConnectDuration := ConnectDuration t;
           tlsStart := tlsStart t; tls := tls t;
           TLSDuration := TLSDuration t;
           WroteRequestDuration := WroteRequestDuration t;
           WaitResponseDuration :=
             match writeStart s with
             | Some w => time_Since now (Some w)
             | None =>
                 let elapsed := time_Since now (Some start) in
                 sub64 (sub64 (sub64 (sub64 elapsed (TLSDuration t))
                                     (ConnectDuration t))
                              (DNSDuration t))
                       (WroteRequestDuration t)
             end;
           BodyDuration := BodyDuration t;
           tlsState := tlsState t; address := address t |}
  end.

(** Lines 92-99: the context of the attempt. *)
Definition attemptCtx (p : Ping) (ctx : Context) (now : time.Time) : Context :=
  let timeout := pinger.DefaultTimeout in
  let timeout :=
    match option_ p with
    | Some o => if pinger.Timeout o >? 0 then pinger.Timeout o else timeout
    | None => timeout
    end in
  WithTimeout ctx now timeout.

(** [trace := Trace{}] and the zero variables of [WithTrace]. *)
Definition initial : hookState :=
  {| t_ := trace.zero; dnsStart := None; hs_connectStart := None;
     hs_tlsStart := None; writeStart := None |}.

(** The hooks seen by the transport: those of [WithTrace] when the
    context carries them, none otherwise. *)
Definition installed (traced : bool) (start : time.Time)
  : time.Time -> httptrace.Event -> hookState -> hookState :=
  if traced then hook start else fun _ _ s => s.

Definition setBodyDuration (t : Trace) (d : Z) : Trace :=
  {| DNSDuration := DNSDuration t;
     connectStart := connectStart t;
     ConnectDuration := ConnectDuration t;
     tlsStart := tlsStart t; tls := tls t;
     TLSDuration := TLSDuration t;
     WroteRequestDuration := WroteRequestDuration t;
     WaitResponseDuration := WaitResponseDuration t;
     BodyDuration := d;
     tlsState := tlsState t; address := address t |}.

(** [p.client.Do(req)]: the request carries [ctx]. *)
Definition Do (p : Ping) (ctx : Context) (now : time.Time) (env : Env)
           (traced : bool) (start : time.Time) (s : hookState)
  : time.Time * outcome Response * hookState :=
  let '(t, r) :=
    await ctx now (doLatency env) (doResult env)
          (fun e => Fail (url_Error (method p) (url p) e)) in
  (t, r, httptrace.fire (installed traced start) now t (doTrace env) s).

(** [io.Copy(io.Discard, resp.Body)]: the body belongs to a request
    that carries [ctx]. *)
Definition copyBody (ctx : Context) (now : time.Time) (env : Env)
  : time.Time * (Z * option error) :=
  await ctx now (bodyLatency env) (bodyN env, bodyErr env)
        (fun e => (bodyNWhenDone env, Some e)).

(** [Ping].  [stats.Extra] points to the local [trace]; the value
    placed in the result is the one the pointer leads to when [Ping]
    returns. *)
Definition Ping_Ping (p : Ping) (ctx : Context) (now : time.Time) (env : Env)
  : time.Time * pinger.Stats :=
  let ctx := attemptCtx p ctx now in
  let s := initial in
  let extra (s : hookState) :=
    if trace_ p then Some (pinger.ExtraTrace (t_ s)) else None in
  let start := now in
  match newRequestErr env with
  | Some err =>
      (now, {| pinger.Connected := false; pinger.Error := Some err;
               pinger.Duration := time_Since now (Some start);
               pinger.DNSDuration := 0; pinger.Address := "";
               pinger.Meta := ∅; pinger.Extra := extra s |})
  | None =>
      let '(t, r, s) := Do p ctx now env (trace_ p) now s in
      let DNSDuration := trace.DNSDuration (t_ s) in
      let Address := trace.address (t_ s) in
      match r with
      | Fail err =>
          (t, {| pinger.Connected := false; pinger.Error := Some err;
                 pinger.Duration := time_Since t (Some start);
                 pinger.DNSDuration := DNSDuration;
                 pinger.Address := Address;
                 pinger.Meta := ∅; pinger.Extra := extra s |})
      | Ok resp =>
          let Meta : gmap string (option pinger.Stringer) :=
            <["status" := Some (pinger.Int (StatusCode resp))]> ∅ in
          let bodyStart := t in
          let '(t, (n, err)) := copyBody ctx t env in
          let bodyReadTime := time_Since t (Some bodyStart) in
          let s := withTrace s (setBodyDuration (t_ s) bodyReadTime) in
          let Meta :=
            if n >? 0 then <["bytes" := Some (pinger.Int n)]> Meta
            else Meta in
          let Duration := time_Since t (Some start) in
          match err with
          | Some err =>
              (t, {| pinger.Connected := false;
                     pinger.Error :=
                       Some (Errorf_w "read body failed: " err);
                     pinger.Duration := Duration;
                     pinger.DNSDuration := DNSDuration;
                     pinger.Address := Address;
                     pinger.Meta := Meta; pinger.Extra := extra s |})
          | None =>
              (t, {| pinger.Connected := true; pinger.Error := None;
                     pinger.Duration := Duration;
                     pinger.DNSDuration := DNSDuration;
                     pinger.Address := Address;
                     pinger.Meta := Meta; pinger.Extra := extra s |})
          end
      end
  end.

End WithSplitHostPort.

End http.

(* ===================================================================== *)
(** ** Package pinger: protocols and the registry *)
(* ===================================================================== *)

Module strings.

(** [c < utf8.RuneSelf]. *)
Definition isASCIIByte (c : ascii) : bool := (N_of_ascii c <? 128)%N.

Definition isUpper (c : ascii) : bool :=
  (65 <=? N_of_ascii c)%N && (N_of_ascii c <=? 90)%N.

(** [c += 'a' - 'A'] for an upper-case letter. *)
Definition lowerByte (c : ascii) : ascii :=
  if isUpper c then ascii_of_N (N_of_ascii c + 32) else c.

Fixpoint isASCII (s : string) : bool :=
  match s with
  | EmptyString => true
  | String.String c rest => isASCIIByte c && isASCII rest
  end.

Fixpoint mapBytes (f : ascii -> ascii) (s : string) : string :=
  match s with
  | EmptyString => EmptyString
  | String.String c rest => String.String (f c) (mapBytes f rest)
  end.

Section Unicode.

(** [strings.Map(unicode.ToLower, s)], which Go applies to a string
    holding a byte outside ASCII. *)
Variable mapToLower : string -> string.

(** [strings.ToLower]: a string of ASCII bytes is lowered byte by byte. *)
Definition ToLower (s : string) : string :=
  if isASCII s then mapBytes lowerByte s else mapToLower s.

End Unicode.

End strings.

Module protocol.

(** [type Protocol int] and its constants. *)
Definition Protocol := Z.
Definition TCP : Protocol := 0.
Definition HTTP : Protocol := 1.
Definition HTTPS : Protocol := 2.
Definition UDP : Protocol := 3.

(** [Protocol.String]. *)
Definition String (protocol : Protocol) : string :=
  if protocol =? TCP then "tcp"
  else if protocol =? HTTP then "http"
  else if protocol =? HTTPS then "https"
  else if protocol =? UDP then "udp"
  else "unknown".

(** The error of [NewProtocol]:
    [fmt.Errorf("%w: %s", ErrProtocolNotSupported, protocolStr)]. *)
Record NotSupported := {
  protocolStr : string
}.

Definition ErrProtocolNotSupported_message : string := "protocol not supported".

Definition Error (e : NotSupported) : string :=
  ErrProtocolNotSupported_message +:+ ": " +:+ protocolStr e.

Section NewProtocol.

Variable mapToLower : string -> string.

(** [NewProtocol]. *)
Definition NewProtocol (protocolStr : string) : Protocol + NotSupported :=
  let lowered := strings.ToLower mapToLower protocolStr in
  if String.eqb lowered (String TCP) then inl TCP
  else if String.eqb lowered (String HTTP) then inl HTTP
  else if String.eqb lowered (String HTTPS) then inl HTTPS
  else if String.eqb lowered (String UDP) then inl UDP
  else inr {| protocolStr := protocolStr |}.

End NewProtocol.

Section Registry.

(** The type of the factories; the registry only stores them. *)
Variable Factory : Type.

(** The package variable [pinger]. *)
Definition Registry := gmap Z Factory.

(** [Register]: the test for an earlier registration has an empty body. *)
Definition Register (protocol : Protocol) (factory : Factory)
           (pinger : gmap Z Factory) : gmap Z Factory :=
  <[protocol := factory]> pinger.

(** [Load]. *)
Definition Load (protocol : Protocol) (pinger : gmap Z Factory)
  : option Factory * bool :=
  match pinger !! protocol with
  | Some factory => (Some factory, true)
  | None => (None, false)
  end.

(** The four registrations made by [cli.Initialize], in their order. *)
Definition Initialize (http https tcp udp : Factory)
           (pinger : gmap Z Factory) : gmap Z Factory :=
  let pinger := Register HTTP http pinger in
  let pinger := Register HTTPS https pinger in
  let pinger := Register TCP tcp pinger in
  Register UDP udp pinger.

End Registry.

End protocol.

(* ===================================================================== *)
(** ** Package pinger: formatError *)
(* ===================================================================== *)

Module format.

Import errors.

Section Leaves.

(** What a leaf error other than the three sentinels answers: [None]
    when its type has no [Timeout] method, [Some b] when it implements
    [net.Error] and [Timeout()] returns [b]. *)
Variable leafTimeout : string -> option bool.

(** Whether the dynamic type of [e] implements [net.Error]. *)
Definition implementsNetError (e : error) : bool :=
  match e with
  | context_DeadlineExceeded => true
  | os_ErrDeadlineExceeded => true
  | net_OpError _ _ _ _ => true
  | url_Error _ _ _ => true
  | New msg => match leafTimeout msg with Some _ => true | None => false end
  | context_Canceled => false
  | Errorf_w _ _ => false
  end.

(** [e.Timeout()]: [*net.OpError] and [*url.Error] ask the error they
    hold, without unwrapping it. *)
Fixpoint Timeout (e : error) : bool :=
  match e with
  | context_DeadlineExceeded => true
  | os_ErrDeadlineExceeded => true
  | net_OpError _ _ _ inner => Timeout inner
  | url_Error _ _ inner => Timeout inner
  | New msg => match leafTimeout msg with Some b => b | None => false end
  | context_Canceled => false
  | Errorf_w _ _ => false
  end.

(** [errors.As(err, &netErr)] for [netErr net.Error]: the first error of
    the chain whose type implements the interface. *)
Fixpoint As_netError (err : error) : option error :=
  if implementsNetError err then Some err
  else match err with
       | Errorf_w _ inner => As_netError inner
       | _ => None
       end.

(** [errors.As(err, &opErr)] for [opErr *net.OpError]: what the first
    [*net.OpError] of the chain holds in [Err]. *)
Fixpoint As_OpError (err : error) : option error :=
  match err with
  | net_OpError _ _ _ inner => Some inner
  | Errorf_w _ inner => As_OpError inner
  | url_Error _ _ inner => As_OpError inner
  | _ => None
  end.

(** Lines 435-454, reached when the chain holds no [*url.Error]. *)
Definition formatNetError (err : error) : string :=
  match As_netError err with
  | Some netErr =>
      if Timeout netErr then "timeout"
      else match As_OpError netErr with
           | Some inner => Error inner
           | None => Error netErr
           end
  | None => Error err
  end.

(** [formatError] on a non-nil error.  The inner [fix] is
    [errors.As(err, &urlErr)]: it walks the chain to the first
    [*url.Error] and formats what that one holds. *)
Fixpoint formatErr (err : error) : string :=
  if Is err context_DeadlineExceeded || Is err os_ErrDeadlineExceeded
  then "timeout"
  else
    match (fix asURL (e : error) : option string :=
             match e with
             | url_Error _ _ inner => Some (formatErr inner)
             | Errorf_w _ inner => asURL inner
             | net_OpError _ _ _ inner => asURL inner
             | _ => None
             end) err with
    | Some s => s
    | None => formatNetError err
    end.

(** [formatError]. *)
Definition formatError (err : option error) : string :=
  match err with
  | None => ""
  | Some err => formatErr err
  end.

End Leaves.

End format.

(* ===================================================================== *)
(** ** Package pinger: the size FormatMeta reserves *)
(* ===================================================================== *)

Module formatmeta.

Import GoInt.

(** [len(s)]. *)
Definition len (s : string) : Z := Z.of_nat (String.length s).

(** The first loop of [FormatMeta] over the sorted keys. *)
Fixpoint estimate (m : gmap string (option pinger.Stringer))
         (keys : list string) (estimatedLen : Z) : Z :=
  match keys with
  | [] => estimatedLen
  | key :: rest =>
      let estimatedLen := add64 estimatedLen (add64 (len key) 1) in
      let estimatedLen :=
        match m !! key with
        | Some (Some val) => add64 estimatedLen (len (pinger.String val))
        | _ => estimatedLen
        end in
      let estimatedLen := add64 estimatedLen 1 in
      estimate m rest estimatedLen
  end.

(** The capacity handed to [builder.Grow]. *)
Definition estimatedLen (order : list string) (s : pinger.Stats) : Z :=
  let keys := pinger.sort_Strings order in
  let estimatedLen := estimate (pinger.Meta s) keys 0 in
  if estimatedLen >? 0 then sub64 estimatedLen 1 else estimatedLen.

End formatmeta.

(* ===================================================================== *)
(** ** Scenarios used by the examples below *)
(* ===================================================================== *)

Module scenario.

Import errors net.

(** A successful attempt of duration [d]. *)
Definition connected (d : Z) : pinger.Stats :=
  {| pinger.Connected := true; pinger.Error := None;
     pinger.Duration := d; pinger.DNSDuration := 0;
     pinger.Address := "192.0.2.1:80"; pinger.Meta := ∅;
     pinger.Extra := None |}.

(** A failed attempt of duration [d] with error [e]. *)
Definition failed (d : Z) (e : error) : pinger.Stats :=
  {| pinger.Connected := false; pinger.Error := Some e;
     pinger.Duration := d; pinger.DNSDuration := 0;
     pinger.Address := ""; pinger.Meta := ∅;
     pinger.Extra := None |}.

Definition refused : error :=
  net_OpError "dial" "tcp" (Some "192.0.2.1:80") (New "connection refused").

Definition canceled : error :=
  net_OpError "dial" "tcp" None context_Canceled.

Definition fresh : pinger.Pinger :=
  pinger.NewPinger "tcp://example.org:80" time.Second 0 time.Second.

Definition Millisecond : Z := 1000000.

(** The context the scheduler hands to an attempt started at instant 0
    with the default timeout of five seconds. *)
Definition schedulerCtx : context.Context :=
  context.WithTimeout context.Background 0 pinger.DefaultTimeout.

Definition defaults : pinger.Option :=
  {| pinger.Timeout := 0; pinger.UA := "tcping" |}.

(** *** TCP with TLS *)

Definition cert : tls.Certificate :=
  {| tls.cert_DNSNames := ["example.org"; "www.example.org"];
     tls.cert_NotBefore := 1700000000;
     tls.cert_NotAfter := 1800000000 |}.

Definition tls13 : tls.ConnectionState :=
  {| tls.Version := 772;       (* 0x0304 *)
     tls.ServerName := "example.org";
     tls.PeerCertificates := [cert] |}.

Definition tlsProbe : tcp.Ping := tcp.New "example.org" 443 defaults true.
Definition plainProbe : tcp.Ping := tcp.New "example.org" 80 defaults false.

Definition handshakeErr : error :=
  New "tls: first record does not look like a TLS handshake".

(** A peer that completes the handshake after one minute. *)
Definition slowHandshake : tcp.Env :=
  {| tcp.tlsLatency := 60 * time.Second;
     tcp.tlsResult := Ok {| tcp.tlsRemoteAddr := "192.0.2.1:443";
                            tcp.tlsConnectionState := tls13 |};
     tcp.dialLatency := 20 * Millisecond;
     tcp.dialResult := Ok "192.0.2.1:443";
     tcp.dialTrace := [];
     tcp.dialAddrWhenDone := None |}.

(** A peer that completes the handshake in 40ms. *)
Definition tlsServer : tcp.Env :=
  {| tcp.tlsLatency := 40 * Millisecond;
     tcp.tlsResult := Ok {| tcp.tlsRemoteAddr := "192.0.2.1:443";
                            tcp.tlsConnectionState := tls13 |};
     tcp.dialLatency := 20 * Millisecond;
     tcp.dialResult := Ok "192.0.2.1:443";
     tcp.dialTrace := [];
     tcp.dialAddrWhenDone := None |}.

(** A peer that accepts TCP connections and does not speak TLS. *)
Definition plainServer : tcp.Env :=
  {| tcp.tlsLatency := 30 * Millisecond;
     tcp.tlsResult := Fail handshakeErr;
     tcp.dialLatency := 20 * Millisecond;
     tcp.dialResult := Ok "192.0.2.1:443";
     tcp.dialTrace := [(1 * Millisecond, httptrace.DNSStart);
                       (5 * Millisecond, httptrace.DNSDone)];
     tcp.dialAddrWhenDone := None |}.

(** A port nobody listens on. *)
Definition closedPort : tcp.Env :=
  {| tcp.tlsLatency := 2 * Millisecond;
     tcp.tlsResult := Fail refused;
     tcp.dialLatency := 2 * Millisecond;
     tcp.dialResult := Fail refused;
     tcp.dialTrace := [];
     tcp.dialAddrWhenDone := None |}.

(** A peer that drops every packet. *)
Definition blackHole : tcp.Env :=
  {| tcp.tlsLatency := 60 * time.Second;
     tcp.tlsResult := Fail os_ErrDeadlineExceeded;
     tcp.dialLatency := 60 * time.Second;
     tcp.dialResult := Fail os_ErrDeadlineExceeded;
     tcp.dialTrace := [];
     tcp.dialAddrWhenDone := Some "192.0.2.1:80" |}.


(** A peer that completes the handshake and leaves no certificate in
    the connection state. *)
Definition noCertificate : tcp.Env :=
  {| tcp.tlsLatency := 40 * Millisecond;
     tcp.tlsResult :=
       Ok {| tcp.tlsRemoteAddr := "192.0.2.1:443";
             tcp.tlsConnectionState :=
               {| tls.Version := 772; tls.ServerName := "example.org";
                  tls.PeerCertificates := [] |} |};
     tcp.dialLatency := 20 * Millisecond;
     tcp.dialResult := Ok "192.0.2.1:443";
     tcp.dialTrace := [];
     tcp.dialAddrWhenDone := None |}.

(** The network on which [peer] answers at [address] over TCP and every
    other dial is refused. *)
Definition only (address : string) (peer : tcp.Env) : tcp.Network :=
  fun network addr =>
    if String.eqb network "tcp" && String.eqb addr address then peer
    else closedPort.

(** *** UDP *)

Definition literalIP (host : string) : option string :=
  if String.eqb host "8.8.8.8" then Some "8.8.8.8" else None.

Definition udpProbe : udp.Ping := udp.New "8.8.8.8" 53 (Some defaults).

(** A server that answers after 12ms with a datagram of [n] bytes. *)
Definition answering (n : Z) : udp.Env :=
  {| udp.ParseIP := literalIP;
     udp.lookupLatency := 0; udp.lookupResult := Ok [];
     udp.dialLatency := 0; udp.dialResult := Ok tt;
     udp.writeLatency := 0; udp.writeResult := Ok 4;
     udp.readLatency := 12 * Millisecond; udp.readResult := Ok n |}.

(** Nobody answers. *)
Definition silent : udp.Env :=
  {| udp.ParseIP := literalIP;
     udp.lookupLatency := 0; udp.lookupResult := Ok [];
     udp.dialLatency := 0; udp.dialResult := Ok tt;
     udp.writeLatency := 0; udp.writeResult := Ok 4;
     udp.readLatency := 3600 * time.Second; udp.readResult := Ok 0 |}.

(** *** HTTP *)

(** Splits at the last colon. *)
Fixpoint splitLastColon (s : string) : option (string * string) :=
  match s with
  | EmptyString => None
  | String.String c rest =>
      match splitLastColon rest with
      | Some (h, p) => Some (String.String c h, p)
      | None => if Ascii.eqb c ":" then Some ("", rest) else None
      end
  end.

Definition httpProbe (traced : bool) : http.Ping :=
  {| http.trace_ := traced; http.option_ := Some defaults;
     http.method := "GET"; http.url := "http://example.org:80" |}.

Definition exchange : httptrace.Schedule :=
  [(1 * Millisecond, httptrace.DNSStart);
   (4 * Millisecond, httptrace.DNSDone);
   (4 * Millisecond, httptrace.ConnectStart "tcp" "93.184.216.34:80");
   (15 * Millisecond, httptrace.ConnectDone "tcp" "93.184.216.34:80" None);
   (16 * Millisecond, httptrace.WroteRequest);
   (40 * Millisecond, httptrace.GotFirstResponseByte)].

(** A server that answers 200 and then breaks the connection while the
    body is read. *)
Definition truncatedBody : http.Env :=
  {| http.newRequestErr := None;
     http.doLatency := 41 * Millisecond;
     http.doResult := Ok {| http.StatusCode := 200 |};
     http.doTrace := exchange;
     http.bodyLatency := 7 * Millisecond;
     http.bodyN := 512;
     http.bodyErr := Some (New "unexpected EOF");
     http.bodyNWhenDone := 0 |}.

(** A server that answers 200 with a body of 1256 bytes. *)
Definition wholeBody : http.Env :=
  {| http.newRequestErr := None;
     http.doLatency := 41 * Millisecond;
     http.doResult := Ok {| http.StatusCode := 200 |};
     http.doTrace := exchange;
     http.bodyLatency := 7 * Millisecond;
     http.bodyN := 1256;
     http.bodyErr := None;
     http.bodyNWhenDone := 0 |}.

End scenario.

(* ===================================================================== *)
(** ** Predicates used in the statements *)
(* ===================================================================== *)

(** Whether [logStats] counts [stats] as a failure. *)
Definition counted (stats : pinger.Stats) : bool :=
  match pinger.Error stats with
  | Some err => negb (errors.Is err errors.context_Canceled)
  | None => false
  end.

(** A stand-in for [time.Duration.String] in the examples. *)
Definition plain_Duration_String (d : Z) : string := GoInt.Itoa d +:+ "ns".

(** What the specification asks of the rendering: every key followed by
    [=] and its value, the pairs of [keys] joined by single spaces. *)
Definition spec_renderValue (v : option (option pinger.Stringer)) : string :=
  match v with
  | Some (Some val) => pinger.String val
  | _ => "<nil>"
  end.

Definition spec_renderPair (m : gmap string (option pinger.Stringer))
           (key : string) : string :=
  key +:+ "=" +:+ spec_renderValue (m !! key).

Definition spec_joinPairs (m : gmap string (option pinger.Stringer))
           (keys : list string) : string :=
  String.concat " " (map (spec_renderPair m) keys).

Definition withMeta (m : gmap string (option pinger.Stringer)) : pinger.Stats :=
  {| pinger.Connected := true; pinger.Error := None; pinger.Duration := 0;
     pinger.DNSDuration := 0; pinger.Address := ""; pinger.Meta := m;
     pinger.Extra := None |}.

Definition meta_ba : gmap string (option pinger.Stringer) :=
  {[ "b" := Some (pinger.StringerFunc (fun _ => "2"));
     "a" := Some (pinger.StringerFunc (fun _ => "1")) ]}.

(** The address a TCP probe dials. *)
Definition target (p : tcp.Ping) : string :=
  tcp.Sprintf_addr (tcp.host p) (tcp.port p).

(** C4 as the specification words it, at one attempt: after a successful
    handshake the result carries the certificate summary, and after a
    failed one the handshake-failure note. *)
Definition C4_summary_after_handshake
           (p : tcp.Ping) (ctx : context.Context) (now : time.Time)
           (world : tcp.Network) : Prop :=
  forall c,
    (tcp.DialWithDialer "tcp" (target p) now world).2 = net.Ok c ->
    exists m,
      pinger.Extra (tcp.Ping_Ping p ctx now world).2 = Some (pinger.ExtraMeta m).

Definition C4_note_after_failed_handshake
           (p : tcp.Ping) (ctx : context.Context) (now : time.Time)
           (world : tcp.Network) : Prop :=
  forall tlsErr,
    (tcp.DialWithDialer "tcp" (target p) now world).2 = net.Fail tlsErr ->
    pinger.Extra (tcp.Ping_Ping p ctx now world).2 =
    Some (pinger.ExtraBuffer ("TLS handshake failed, " +:+ errors.Error tlsErr)).

(** *** Reference quantities over the attempts of a run *)

(** The attempts the loop of [Ping] gets to make out of [results] when
    [done] attempts have been made: all of them without a positive
    counter, no more than the counter allows otherwise. *)
Definition remaining (counter done : Z) (results : list pinger.Stats)
  : list pinger.Stats :=
  if counter >? 0 then take (Z.to_nat (counter - done)) results else results.

(** The attempts counted as failures. *)
Definition failures (rs : list pinger.Stats) : list pinger.Stats :=
  filter (fun r => counted r = true) rs.

(** The attempts whose error is nil or wraps [context.Canceled]. *)
Definition nonFailures (rs : list pinger.Stats) : list pinger.Stats :=
  filter (fun r => counted r = false) rs.

(** Least and greatest duration among the connected attempts of [rs],
    starting from [init]; sum of their durations. *)
Definition minOver (init : Z) (rs : list pinger.Stats) : Z :=
  foldr (fun r m => if pinger.Connected r then Z.min (pinger.Duration r) m else m)
        init rs.

Definition maxOver (init : Z) (rs : list pinger.Stats) : Z :=
  foldr (fun r m => if pinger.Connected r then Z.max (pinger.Duration r) m else m)
        init rs.

Definition sumOver (rs : list pinger.Stats) : Z :=
  foldr (fun r a => if pinger.Connected r then pinger.Duration r + a else a) 0 rs.

(** The first three lines of the summary and the heading of the fourth. *)
Definition spec_summaryHead (url : string) (total success failed : Z) : string :=
  pinger.nl +:+ "Ping statistics " +:+ url +:+ pinger.nl
    +:+ "    " +:+ GoInt.Itoa total +:+ " probes sent." +:+ pinger.nl
    +:+ "    " +:+ GoInt.Itoa success +:+ " successful, "
    +:+ GoInt.Itoa failed +:+ " failed." +:+ pinger.nl
    +:+ "Approximate trip times:".

(** *** Reference notions for the other functions *)

(** Whether the value stored under [key] is written [<nil>]. *)
Definition nilValued (m : gmap string (option pinger.Stringer)) (key : string)
  : bool :=
  match m !! key with
  | Some (Some _) => false
  | _ => true
  end.

(** A string with its ASCII lower-case letters turned to upper case. *)
Definition upperByte (c : ascii) : ascii :=
  if ((97 <=? N_of_ascii c)%N && (N_of_ascii c <=? 122)%N)%bool
  then ascii_of_N (N_of_ascii c - 32) else c.

Definition upperCased (s : string) : string := strings.mapBytes upperByte s.

(** The factory [cli.Initialize] registers for [protocol]. *)
Definition registeredFor {Factory : Type} (http https tcp udp : Factory)
           (protocol : Z) : Factory :=
  if protocol =? protocol.TCP then tcp
  else if protocol =? protocol.HTTP then http
  else if protocol =? protocol.HTTPS then https
  else udp.

(** The sum the first loop computes when nothing overflows. *)
Fixpoint estimateSum (m : gmap string (option pinger.Stringer))
         (keys : list string) : Z :=
  match keys with
  | [] => 0
  | key :: rest =>
      formatmeta.len key + 1
      + (if nilValued m key then 0
         else formatmeta.len (spec_renderValue (m !! key)))
      + 1 + estimateSum m rest
  end.

(** [errors.As(err, &urlErr)]: what the first [*url.Error] of the chain
    holds in [Err]. *)
Fixpoint firstURLError (e : errors.error) : option errors.error :=
  match e with
  | errors.url_Error _ _ inner => Some inner
  | errors.Errorf_w _ inner => firstURLError inner
  | errors.net_OpError _ _ _ inner => firstURLError inner
  | _ => None
  end.

(** Whether [e] wraps one of the two deadline errors. *)
Definition isDeadline (e : errors.error) : bool :=
  errors.Is e errors.context_DeadlineExceeded
  || errors.Is e errors.os_ErrDeadlineExceeded.

(** The hooks of [sched] that fire no later than [upto], in order. *)
Definition firedEvents (from upto : time.Time)
           (sched : list (Z * httptrace.Event)) : list httptrace.Event :=
  (filter (fun de : Z * httptrace.Event => Is_true (from + de.1 <=? upto)) sched).*2.

Definition isTLSHandshakeStart (ev : httptrace.Event) : bool :=
  match ev with
  | httptrace.TLSHandshakeStart => true
  | _ => false
  end.

(** The host of the connection attempt started last, [init] before any. *)
Definition lastConnectHost (SplitHostPort : string -> option (string * string))
           (init : string) (events : list httptrace.Event) : string :=
  fold_left (fun host ev =>
               match ev with
               | httptrace.ConnectStart _ addr =>
                   match SplitHostPort addr with
                   | Some (h, _) => h
                   | None => addr
                   end
               | _ => host
               end) events init.

(** The hooks that leave the four durations measured up to the writing
    of the request as they are. *)
Definition keepsPhases (ev : httptrace.Event) : bool :=
  match ev with
  | httptrace.DNSDone => false
  | httptrace.ConnectDone _ _ _ => false
  | httptrace.TLSHandshakeDone _ _ => false
  | httptrace.WroteRequest => false
  | _ => true
  end.

(** The sum of the durations a trace holds for the phases up to the
    writing of the request. *)
Definition phasesSum (t : trace.Trace) : Z :=
  trace.DNSDuration t + trace.ConnectDuration t + trace.TLSDuration t
  + trace.WroteRequestDuration t.

(** A context the scheduler cancels one second into an attempt started
    at instant 0, four seconds before its deadline. *)
Definition stoppedCtx : context.Context :=
  {| context.cancelAt := Some (1 * time.Second);
     context.deadline := Some (5 * time.Second) |}.






(* ===================================================================== *)
(** ** Properties of the statistics *)
(* ===================================================================== *)

Import GoInt.

Lemma wrap64_small (z : Z) : in_int64 z -> wrap64 z = z.
Proof.
  unfold in_int64, MinInt64, MaxInt64, wrap64. intros H.
  rewrite Z.mod_small; lia.
Qed.


(** Which counters [logStats] touches. *)
Lemma logStats_total (p : pinger.Pinger) (stats : pinger.Stats) :
  pinger.total (pinger.logStats p stats) = pinger.total p.
Proof.
  unfold pinger.logStats.
  destruct (pinger.Connected stats), (pinger.Error stats) as [e|];
    repeat (simpl; try case_match); reflexivity.
Qed.

Lemma logStats_out (p : pinger.Pinger) (stats : pinger.Stats) :
  pinger.out (pinger.logStats p stats) = pinger.out p ++ [stats].
Proof.
  unfold pinger.logStats.
  destruct (pinger.Connected stats), (pinger.Error stats) as [e|];
    repeat (simpl; try case_match); reflexivity.
Qed.

Lemma logStats_failedTotal (p : pinger.Pinger) (stats : pinger.Stats) :
  pinger.failedTotal (pinger.logStats p stats) =
  if counted stats then add64 (pinger.failedTotal p) 1 else pinger.failedTotal p.
Proof.
  unfold pinger.logStats, counted.
  destruct (pinger.Connected stats), (pinger.Error stats) as [e|];
    repeat (simpl; try case_match); reflexivity.
Qed.

Lemma logStats_durations (p : pinger.Pinger) (stats : pinger.Stats) :
  pinger.minDuration (pinger.logStats p stats) =
    (if pinger.Connected stats
     then Z.min (pinger.minDuration p) (pinger.Duration stats)
     else pinger.minDuration p) /\
  pinger.maxDuration (pinger.logStats p stats) =
    (if pinger.Connected stats
     then Z.max (pinger.maxDuration p) (pinger.Duration stats)
     else pinger.maxDuration p) /\
  pinger.totalDuration (pinger.logStats p stats) =
    (if pinger.Connected stats
     then add64 (pinger.totalDuration p) (pinger.Duration stats)
     else pinger.totalDuration p).
Proof.
  unfold pinger.logStats.
  destruct (pinger.Connected stats).
  - destruct (Z.ltb_spec (pinger.Duration stats) (pinger.minDuration p));
      simpl; rewrite Z.gtb_ltb;
      destruct (Z.ltb_spec (pinger.maxDuration p) (pinger.Duration stats));
      simpl; destruct (pinger.Error stats) as [e|];
      repeat (simpl; try case_match); repeat split; lia.
  - destruct (pinger.Error stats) as [e|];
      repeat (simpl; try case_match); repeat split; reflexivity.
Qed.


(** The average written by [Summarize] once an attempt has completed. *)
Lemma summarize_average (p : pinger.Pinger) :
  0 < pinger.total p ->
  pinger.sd_AvgDuration (pinger.summarize p) =
  div64 (pinger.totalDuration p) (pinger.total p).
Proof.
  intros H. unfold pinger.summarize. rewrite Z.gtb_ltb.
  destruct (Z.ltb_spec 0 (pinger.total p)); [reflexivity|lia].
Qed.

(** C1.  The run made of one connected attempt of 100ns followed by one
    refused attempt: the sum of the successful durations is 100ns and one
    attempt succeeded, so the average over the successful attempts is
    100ns, which is also what [Result.Avg] returns on these totals; the
    summary reports 50ns, the sum divided by the two attempts made. *)
Theorem C1_summary_average_divides_by_attempts :
  let p := pinger.Ping scenario.fresh
             [scenario.connected 100; scenario.failed 7 scenario.refused] in
  let d := pinger.summarize p in
  pinger.totalDuration p = 100 /\
  pinger.sd_Total d = 2 /\
  pinger.sd_SuccessTotal d = 1 /\
  pinger.sd_AvgDuration d = 50 /\
  div64 (pinger.totalDuration p) (pinger.sd_SuccessTotal d) = 100 /\
  pinger.Avg {| pinger.Counter := pinger.sd_Total d;
                pinger.SuccessCounter := pinger.sd_SuccessTotal d;
                pinger.MinDuration := pinger.minDuration p;
                pinger.MaxDuration := pinger.maxDuration p;
                pinger.TotalDuration := pinger.totalDuration p |} = 100.
Proof.
  vm_compute. repeat split.
Qed.

Lemma attempt_unconnected (p : pinger.Pinger) (stats : pinger.Stats) :
  pinger.Connected stats = false ->
  pinger.minDuration (pinger.attempt p stats) = pinger.minDuration p /\
  pinger.maxDuration (pinger.attempt p stats) = pinger.maxDuration p /\
  pinger.totalDuration (pinger.attempt p stats) = pinger.totalDuration p.
Proof.
  intros Hc. destruct (logStats_durations p stats) as (H1 & H2 & H3).
  rewrite Hc in H1, H2, H3. unfold pinger.attempt.
  revert H1 H2 H3. generalize (pinger.logStats p stats). intros q H1 H2 H3.
  simpl. auto.
Qed.

Lemma attempt_url (p : pinger.Pinger) (stats : pinger.Stats) :
  pinger.url (pinger.attempt p stats) = pinger.url p.
Proof.
  unfold pinger.attempt, pinger.logStats.
  destruct (pinger.Connected stats), (pinger.Error stats) as [e|];
    repeat (simpl; try case_match); reflexivity.
Qed.

Lemma loop_unconnected (results : list pinger.Stats) (p : pinger.Pinger) :
  Forall (fun r => pinger.Connected r = false) results ->
  pinger.minDuration (pinger.loop p results) = pinger.minDuration p /\
  pinger.maxDuration (pinger.loop p results) = pinger.maxDuration p /\
  pinger.totalDuration (pinger.loop p results) = pinger.totalDuration p /\
  pinger.url (pinger.loop p results) = pinger.url p.
Proof.
  revert p. induction results as [|stats rest IH]; intros p Hall; simpl.
  - auto.
  - inversion Hall as [|? ? Hc Hrest]; subst.
    destruct (attempt_unconnected p stats Hc) as (H1 & H2 & H3).
    pose proof (attempt_url p stats) as H4.
    case_match.
    + auto.
    + destruct (IH (pinger.attempt p stats) Hrest) as (I1 & I2 & I3 & I4).
      rewrite I1, I2, I3, I4. auto.
Qed.

(** C9.  When a run completed at least one attempt and none connected,
    the summary takes the branch that prints minimum, maximum and
    average; the minimum it prints is [math.MaxInt64] nanoseconds, the
    value [Ping] stored before the loop, and the maximum is 0. *)
Theorem C9_no_success_prints_sentinel
        (Duration_String : Z -> string)
        (url : string) (interval counter timeout : Z)
        (results : list pinger.Stats) :
  let p := pinger.Ping (pinger.NewPinger url interval counter timeout) results in
  0 < pinger.total p ->
  Forall (fun r => pinger.Connected r = false) results ->
  pinger.sd_MinDuration (pinger.summarize p) = 2 ^ 63 - 1 /\
  pinger.sd_MaxDuration (pinger.summarize p) = 0 /\
  pinger.Summarize Duration_String p =
    pinger.nl +:+ "Ping statistics " +:+ url +:+ pinger.nl
      +:+ "    " +:+ Itoa (pinger.total p) +:+ " probes sent." +:+ pinger.nl
      +:+ "    " +:+ Itoa (sub64 (pinger.total p) (pinger.failedTotal p))
      +:+ " successful, " +:+ Itoa (pinger.failedTotal p) +:+ " failed."
      +:+ pinger.nl
      +:+ "Approximate trip times:"
      +:+ pinger.nl +:+ "    Minimum = " +:+ Duration_String (2 ^ 63 - 1)
      +:+ ", Maximum = " +:+ Duration_String 0
      +:+ ", Average = " +:+ Duration_String 0.
Proof.
  intros p Hpos Hall.
  destruct (loop_unconnected results
              (pinger.set_minDuration
                 (pinger.NewPinger url interval counter timeout) MaxInt64) Hall)
    as (Hmin & Hmax & Hsum & Hurl).
  fold (pinger.Ping (pinger.NewPinger url interval counter timeout) results) in *.
  fold p in Hmin, Hmax, Hsum, Hurl.
  simpl in Hmin, Hmax, Hsum, Hurl.
  assert (Hgt : (pinger.total p >? 0) = true).
  { rewrite Z.gtb_ltb. apply Z.ltb_lt. exact Hpos. }
  assert (Hnz : (pinger.total p =? 0) = false).
  { apply Z.eqb_neq. lia. }
  assert (Hd : pinger.summarize p =
               {| pinger.sd_URL := url;
                  pinger.sd_Total := pinger.total p;
                  pinger.sd_SuccessTotal :=
                    sub64 (pinger.total p) (pinger.failedTotal p);
                  pinger.sd_FailedTotal := pinger.failedTotal p;
                  pinger.sd_MinDuration := 2 ^ 63 - 1;
                  pinger.sd_MaxDuration := 0;
                  pinger.sd_AvgDuration := 0 |}).
  { unfold pinger.summarize. rewrite Hgt, Hmin, Hmax, Hsum, Hurl.
    unfold div64. rewrite Z.quot_0_l by lia. reflexivity. }
  unfold pinger.Summarize. rewrite Hd.
  split; [reflexivity|]. split; [reflexivity|].
  unfold pinger.executeSummaryTpl. simpl. rewrite Hnz. reflexivity.
Qed.

Lemma C9_witness :
  let results := [scenario.failed 7 scenario.refused;
                  scenario.failed 9 scenario.refused] in
  let p := pinger.Ping scenario.fresh results in
  0 < pinger.total p /\
  Forall (fun r => pinger.Connected r = false) results /\
  pinger.sd_MinDuration (pinger.summarize p) = 2 ^ 63 - 1 /\
  pinger.sd_MaxDuration (pinger.summarize p) = 0.
Proof.
  intros results p.
  assert (Hpos : 0 < pinger.total p) by reflexivity.
  assert (Hall : Forall (fun r => pinger.Connected r = false) results).
  { repeat constructor. }
  split; [exact Hpos|]. split; [exact Hall|].
  pose proof (C9_no_success_prints_sentinel plain_Duration_String
                "tcp://example.org:80" time.Second 0 time.Second
                results Hpos Hall) as (H1 & H2 & _).
  split; [exact H1|exact H2].
Defined.

(* ===================================================================== *)
(** ** Properties of FormatMeta *)
(* ===================================================================== *)

Lemma string_app_assoc (a b c : string) : (a +:+ b) +:+ c = a +:+ (b +:+ c).
Proof.
  induction a as [|x a IH]; [reflexivity|].
  change (String.String x ((a +:+ b) +:+ c) = String.String x (a +:+ (b +:+ c))).
  now rewrite IH.
Qed.

Lemma string_app_nil_r (a : string) : a +:+ "" = a.
Proof.
  induction a as [|x a IH]; [reflexivity|].
  change (String.String x (a +:+ "") = String.String x a).
  now rewrite IH.
Qed.

Lemma writePairs_join (m : gmap string (option pinger.Stringer))
      (keys : list string) (i : nat) (builder : string) :
  pinger.writePairs m i keys builder =
  builder +:+ (match keys with
               | [] => ""
               | _ :: _ => if (0 <? i)%nat then " " else ""
               end) +:+ spec_joinPairs m keys.
Proof.
  revert i builder. induction keys as [|key rest IH]; intros i builder.
  - cbn [pinger.writePairs]. unfold spec_joinPairs. cbn [map String.concat].
    now rewrite !string_app_nil_r.
  - cbn [pinger.writePairs]. rewrite IH. unfold spec_joinPairs.
    cbn [map String.concat].
    assert (Hv : forall b : string,
               match m !! key with
               | Some (Some val) => b +:+ pinger.String val
               | _ => b +:+ "<nil>"
               end = b +:+ spec_renderValue (m !! key)).
    { intros b. unfold spec_renderValue.
      destruct (m !! key) as [[v|]|]; reflexivity. }
    rewrite Hv. unfold spec_renderPair.
    destruct rest as [|key' rest'].
    + cbn [map String.concat].
      destruct (0 <? i)%nat;
        rewrite ?string_app_nil_r, ?string_app_assoc; reflexivity.
    + change (0 <? S i)%nat with true. cbv iota.
      destruct (0 <? i)%nat;
        rewrite ?string_app_nil_r, ?string_app_assoc; reflexivity.
Qed.

Lemma range_order_empty (order : list string) :
  pinger.range_order ∅ order -> order = [].
Proof.
  unfold pinger.range_order. rewrite map_to_list_empty. simpl.
  apply Permutation_nil_r.
Qed.

Lemma FormatMeta_join (s : pinger.Stats) (order : list string) :
  pinger.range_order (pinger.Meta s) order ->
  pinger.FormatMeta order s =
  spec_joinPairs (pinger.Meta s) (pinger.sort_Strings order).
Proof.
  intros Hr. unfold pinger.FormatMeta.
  destruct (Nat.eqb_spec (size (pinger.Meta s)) 0) as [E|E].
  - apply map_size_empty_iff in E. rewrite E in Hr.
    apply range_order_empty in Hr. subst order. reflexivity.
  - rewrite writePairs_join.
    destruct (pinger.sort_Strings order); reflexivity.
Qed.

Lemma sort_Strings_sorted (order : list string) :
  StronglySorted String.le (pinger.sort_Strings order).
Proof. apply StronglySorted_merge_sort; apply _. Qed.

Lemma sort_Strings_perm (order : list string) :
  pinger.sort_Strings order ≡ₚ order.
Proof. apply merge_sort_Permutation. Qed.

Lemma sort_Strings_order_irrelevant (order order' : list string) :
  order ≡ₚ order' -> pinger.sort_Strings order = pinger.sort_Strings order'.
Proof.
  intros Hp. apply (StronglySorted_unique String.le).
  - apply sort_Strings_sorted.
  - apply sort_Strings_sorted.
  - now rewrite !sort_Strings_perm.
Qed.

Lemma range_order_meta_ba (order : list string) :
  pinger.range_order meta_ba order -> order ≡ₚ ["a"; "b"].
Proof.
  unfold pinger.range_order, meta_ba. intros ->.
  rewrite map_to_list_insert by reflexivity.
  rewrite map_to_list_singleton. simpl. apply perm_swap.
Qed.

(** C8.  Whatever order the map iteration yields the keys in,
    [FormatMeta] writes the pairs [key=value] joined by single spaces
    with the keys in ascending order; hence the result does not depend
    on the iteration order, and the map [{"b":"2","a":"1"}] is written
    [a=1 b=2]. *)
Theorem C8_FormatMeta_sorted_and_deterministic
        (s : pinger.Stats) (order : list string) :
  pinger.range_order (pinger.Meta s) order ->
  (exists keys,
      keys ≡ₚ (map_to_list (pinger.Meta s)).*1 /\
      StronglySorted String.le keys /\
      pinger.FormatMeta order s = spec_joinPairs (pinger.Meta s) keys) /\
  (forall order', pinger.range_order (pinger.Meta s) order' ->
                  pinger.FormatMeta order' s = pinger.FormatMeta order s) /\
  (forall order0, pinger.range_order meta_ba order0 ->
                  pinger.FormatMeta order0 (withMeta meta_ba) = "a=1 b=2").
Proof.
  intros Hr. split; [|split].
  - exists (pinger.sort_Strings order). split; [|split].
    + rewrite sort_Strings_perm. exact Hr.
    + apply sort_Strings_sorted.
    + apply FormatMeta_join. exact Hr.
  - intros order' Hr'. rewrite !FormatMeta_join by assumption.
    f_equal. apply sort_Strings_order_irrelevant.
    unfold pinger.range_order in *. now rewrite Hr, Hr'.
  - intros order0 Hr0. rewrite FormatMeta_join by exact Hr0.
    apply range_order_meta_ba in Hr0.
    rewrite (sort_Strings_order_irrelevant _ _ Hr0). reflexivity.
Qed.

Lemma C8_witness :
  pinger.range_order (pinger.Meta (withMeta meta_ba)) ["b"; "a"] /\
  pinger.FormatMeta ["b"; "a"] (withMeta meta_ba) = "a=1 b=2".
Proof.
  assert (Hr : pinger.range_order (pinger.Meta (withMeta meta_ba)) ["b"; "a"]).
  { unfold pinger.range_order, withMeta, meta_ba. simpl.
    rewrite map_to_list_insert by reflexivity.
    rewrite map_to_list_singleton. reflexivity. }
  split; [exact Hr|].
  exact (proj2 (proj2 (C8_FormatMeta_sorted_and_deterministic
                         (withMeta meta_ba) ["b"; "a"] Hr)) ["b"; "a"] Hr).
Defined.

(* ===================================================================== *)
(** ** Properties of the TCP probe *)
(* ===================================================================== *)

Lemma attemptCtx_doneAt (p : tcp.Ping) (ctx : context.Context) (now : time.Time) :
  exists d, context.doneAt (tcp.attemptCtx p ctx now) = Some d.
Proof.
  unfold tcp.attemptCtx, context.WithTimeout, context.doneAt. simpl.
  destruct (context.cancelAt ctx), (context.deadline ctx); simpl; eauto.
Qed.

(** The probe dials its target and nothing else: the answers of the
    other addresses of the network do not reach the result. *)
Lemma Ping_Ping_target (p : tcp.Ping) (ctx : context.Context) (now : time.Time)
      (world world' : tcp.Network) :
  world' "tcp" (target p) = world "tcp" (target p) ->
  tcp.Ping_Ping p ctx now world' = tcp.Ping_Ping p ctx now world.
Proof.
  intros H. unfold tcp.Ping_Ping, tcp.DialWithDialer, tcp.DialContext.
  fold (target p). cbv zeta. rewrite H. reflexivity.
Qed.

(** The attempt without TLS hands [ctx] to its only network call: it is
    over by the instant the context is done, and when the context is
    done before the dial completes the result carries the error of the
    context.  [env] is the peer at the address the probe dials. *)
Lemma tcp_plain_attempt_bounded
      (p : tcp.Ping) (ctx : context.Context) (now : time.Time)
      (world : tcp.Network) :
  let env := world "tcp" (target p) in
  tcp.tls p = false ->
  0 <= tcp.dialLatency env ->
  exists d,
    context.doneAt (tcp.attemptCtx p ctx now) = Some d /\
    (tcp.Ping_Ping p ctx now world).1 <= Z.max now d /\
    (d < now + tcp.dialLatency env ->
     pinger.Connected (tcp.Ping_Ping p ctx now world).2 = false /\
     pinger.Error (tcp.Ping_Ping p ctx now world).2 =
       Some (errors.net_OpError "dial" "tcp" (tcp.dialAddrWhenDone env)
               (context.Err (tcp.attemptCtx p ctx now)))).
Proof.
  intros env Htls Hlat.
  destruct (attemptCtx_doneAt p ctx now) as [d Hd]. exists d.
  split; [exact Hd|].
  unfold tcp.Ping_Ping. rewrite Htls.
  unfold tcp.DialContext. fold (target p). fold env. cbv zeta.
  unfold context.await. rewrite Hd.
  destruct (Z.ltb_spec d (now + tcp.dialLatency env)) as [Hlt|Hge].
  - simpl. split; [lia|]. intros _. split; reflexivity.
  - destruct (tcp.dialResult env) as [a|e]; simpl; (split; [lia|intros; lia]).
Qed.

(** An attempt without TLS that the scheduler cancels while the dial is
    in flight reports an error that wraps [context.Canceled], and so is
    not counted as a failure by [logStats].  [env] is the peer at the
    address the probe dials. *)
Lemma tcp_plain_cancelled_not_counted
      (p : tcp.Ping) (ctx : context.Context) (now : time.Time)
      (world : tcp.Network) (c : time.Time) :
  let env := world "tcp" (target p) in
  tcp.tls p = false ->
  context.cancelAt ctx = Some c ->
  (forall d, context.deadline (tcp.attemptCtx p ctx now) = Some d -> c <= d) ->
  c < now + tcp.dialLatency env ->
  errors.Is (errors.net_OpError "dial" "tcp" (tcp.dialAddrWhenDone env)
               errors.context_Canceled) errors.context_Canceled = true /\
  pinger.Error (tcp.Ping_Ping p ctx now world).2 =
    Some (errors.net_OpError "dial" "tcp" (tcp.dialAddrWhenDone env)
            errors.context_Canceled) /\
  counted (tcp.Ping_Ping p ctx now world).2 = false.
Proof.
  intros env Htls Hc Hd Hlt.
  assert (Hctx : exists d, context.deadline (tcp.attemptCtx p ctx now) = Some d).
  { unfold tcp.attemptCtx, context.WithTimeout. simpl.
    destruct (context.deadline ctx); simpl; eauto. }
  destruct Hctx as [d Hdl]. specialize (Hd d Hdl).
  assert (Hcancel : context.cancelAt (tcp.attemptCtx p ctx now) = Some c).
  { unfold tcp.attemptCtx, context.WithTimeout. simpl. exact Hc. }
  assert (Hdone : context.doneAt (tcp.attemptCtx p ctx now) = Some c).
  { unfold context.doneAt. rewrite Hcancel, Hdl. simpl. f_equal. lia. }
  assert (Herr : context.Err (tcp.attemptCtx p ctx now) = errors.context_Canceled).
  { unfold context.Err. rewrite Hcancel, Hdl.
    destruct (Z.leb_spec c d); [reflexivity|lia]. }
  split; [reflexivity|].
  unfold counted, tcp.Ping_Ping. rewrite Htls.
  unfold tcp.DialContext. fold (target p). fold env. cbv zeta.
  unfold context.await. rewrite Hdone, Herr.
  destruct (Z.ltb_spec c (now + tcp.dialLatency env)); [|lia].
  simpl. split; reflexivity.
Qed.

(** C2.  The TCP probe with TLS, handed the scheduler's context whose
    deadline is five seconds away.  Against a peer that completes the
    handshake after one minute, the attempt returns after sixty seconds,
    connected and without an error.  Against a peer that drops every
    packet until the system gives up after one minute, the attempt
    returns its error after sixty seconds.  The handshake is made by
    [tls.DialWithDialer], which is not given the context; the probe
    without TLS returns from the second peer when the five seconds are
    over. *)
Theorem C2_tls_handshake_outlives_deadline :
  let ctx := tcp.attemptCtx scenario.tlsProbe scenario.schedulerCtx 0 in
  let slow := tcp.Ping_Ping scenario.tlsProbe scenario.schedulerCtx 0
                (scenario.only "example.org:443" scenario.slowHandshake) in
  let lost := tcp.Ping_Ping scenario.tlsProbe scenario.schedulerCtx 0
                (scenario.only "example.org:443" scenario.blackHole) in
  let plain := tcp.Ping_Ping scenario.plainProbe scenario.schedulerCtx 0
                 (scenario.only "example.org:80" scenario.blackHole) in
  context.doneAt ctx = Some (5 * time.Second) /\
  (slow.1 = 60 * time.Second /\
   pinger.Connected slow.2 = true /\
   pinger.Error slow.2 = None /\
   pinger.Duration slow.2 = 60 * time.Second) /\
  (lost.1 = 60 * time.Second /\
   pinger.Connected lost.2 = false /\
   pinger.Duration lost.2 = 60 * time.Second) /\
  (plain.1 = 5 * time.Second /\
   pinger.Connected plain.2 = false /\
   pinger.Error plain.2 =
     Some (errors.net_OpError "dial" "tcp" (Some "192.0.2.1:80")
             errors.context_DeadlineExceeded)).
Proof.
  vm_compute. repeat split.
Qed.

(** Two attempts of the probe with TLS at [example.org:443].  Where
    nobody listens, the handshake fails, the plain dial fails too, and
    the result carries no note.  Where the handshake completes and the
    connection state holds no peer certificate, the test on line 87
    fails and the result carries the note in place of a summary. *)
Lemma C4_counterexample :
  let closed := scenario.only "example.org:443" scenario.closedPort in
  let bare := scenario.only "example.org:443" scenario.noCertificate in
  tcp.tls scenario.tlsProbe = true /\
  ((tcp.DialWithDialer "tcp" (target scenario.tlsProbe) 0 closed).2
     = net.Fail scenario.refused /\
   pinger.Extra (tcp.Ping_Ping scenario.tlsProbe scenario.schedulerCtx 0
                               closed).2 = None /\
   ~ C4_note_after_failed_handshake scenario.tlsProbe scenario.schedulerCtx 0
                                    closed) /\
  (net.isOk (tcp.DialWithDialer "tcp" (target scenario.tlsProbe) 0 bare).2
     = true /\
   pinger.Extra (tcp.Ping_Ping scenario.tlsProbe scenario.schedulerCtx 0
                               bare).2 =
     Some (pinger.ExtraBuffer "TLS handshake failed, %!s(<nil>)") /\
   ~ C4_summary_after_handshake scenario.tlsProbe scenario.schedulerCtx 0 bare).
Proof.
  intros closed bare. split; [reflexivity|]. split.
  - split; [reflexivity|]. split; [reflexivity|].
    intros H. specialize (H scenario.refused eq_refl). discriminate H.
  - split; [reflexivity|]. split; [reflexivity|].
    intros H. destruct (H _ eq_refl) as [m Hm]. discriminate Hm.
Qed.

(** C4, amended.  For the TCP probe with TLS.  The probe dials the
    address made of its host and port and no other.  When the handshake
    with that address succeeds the attempt is connected, and with a peer
    certificate in the connection state [Extra] is the summary built
    from the first certificate (its DNS names, the server name, the
    version minus [VersionTLS10], its validity window).  When the
    handshake fails, the plain dial is made to the same address, with
    the context of the attempt, from the instant of the failure on;
    [Connected] tells whether that dial succeeded, and [Extra] is the
    one-line note quoting the TLS error when it did succeed, while it
    stays unset and [Error] is the dial error when it did not. *)
Theorem C4_tls_extra_and_fallback
        (p : tcp.Ping) (ctx : context.Context) (now : time.Time)
        (world : tcp.Network) :
  tcp.tls p = true ->
  let stats := (tcp.Ping_Ping p ctx now world).2 in
  let handshake := tcp.DialWithDialer "tcp" (target p) now world in
  (forall world' : tcp.Network,
      world' "tcp" (target p) = world "tcp" (target p) ->
      tcp.Ping_Ping p ctx now world' = tcp.Ping_Ping p ctx now world) /\
  match handshake.2 with
  | net.Ok c =>
      pinger.Connected stats = true /\
      pinger.Error stats = None /\
      forall cert rest,
        tls.PeerCertificates (tcp.tlsConnectionState c) = cert :: rest ->
        pinger.Extra stats =
        Some (pinger.ExtraMeta
                {| meta.DNSNames := tls.cert_DNSNames cert;
                   meta.ServerName := tls.ServerName (tcp.tlsConnectionState c);
                   meta.Version :=
                     wrap16 (tls.Version (tcp.tlsConnectionState c)
                             - tls.VersionTLS10);
                   meta.NotBefore := tls.cert_NotBefore cert;
                   meta.NotAfter := tls.cert_NotAfter cert |})
  | net.Fail tlsErr =>
      match (tcp.DialContext (tcp.attemptCtx p ctx now) "tcp" (target p)
                             handshake.1 world tcp.initial).1.2 with
      | net.Ok addr =>
          pinger.Connected stats = true /\
          pinger.Error stats = None /\
          pinger.Extra stats =
          Some (pinger.ExtraBuffer
                  ("TLS handshake failed, " +:+ errors.Error tlsErr))
      | net.Fail err =>
          pinger.Connected stats = false /\
          pinger.Error stats = Some err /\
          pinger.Extra stats = None
      end
  end.
Proof.
  intros Htls stats handshake. split.
  - intros world' H. now apply Ping_Ping_target.
  - subst stats handshake. unfold tcp.Ping_Ping. rewrite Htls.
    fold (target p).
    destruct (tcp.DialWithDialer "tcp" (target p) now world) as [t [c|tlsErr]].
    + simpl. split; [reflexivity|]. split; [reflexivity|].
      intros cert rest Hc. rewrite Hc. reflexivity.
    + cbn [fst snd].
      destruct (tcp.DialContext (tcp.attemptCtx p ctx now) "tcp" (target p)
                                t world tcp.initial)
        as [[t' r] hs].
      destruct r as [addr|err]; simpl; auto.
Qed.

Lemma C4_witness :
  let world := scenario.only "example.org:443" scenario.plainServer in
  tcp.tls scenario.tlsProbe = true /\
  pinger.Connected (tcp.Ping_Ping scenario.tlsProbe scenario.schedulerCtx 0
                                  world).2 = true /\
  pinger.Extra (tcp.Ping_Ping scenario.tlsProbe scenario.schedulerCtx 0
                              world).2 =
  Some (pinger.ExtraBuffer
          "TLS handshake failed, tls: first record does not look like a TLS handshake").
Proof.
  intros world. split; [reflexivity|].
  pose proof (C4_tls_extra_and_fallback scenario.tlsProbe scenario.schedulerCtx 0
                world eq_refl) as H.
  cbv zeta in H. destruct H as [_ H].
  change ((tcp.DialWithDialer "tcp" (target scenario.tlsProbe) 0 world).2)
    with (@net.Fail tcp.tlsConn scenario.handshakeErr) in H.
  cbv iota beta in H.
  change ((tcp.DialContext
             (tcp.attemptCtx scenario.tlsProbe scenario.schedulerCtx 0)
             "tcp" (target scenario.tlsProbe)
             (tcp.DialWithDialer "tcp" (target scenario.tlsProbe) 0 world).1
             world tcp.initial).1.2)
    with (@net.Ok string "192.0.2.1:443") in H.
  cbv iota beta in H.
  destruct H as (H1 & _ & H3). split; [exact H1|exact H3].
Defined.

(* ===================================================================== *)
(** ** Properties of the UDP probe *)
(* ===================================================================== *)



(* ===================================================================== *)
(** ** Properties of the HTTP probe *)
(* ===================================================================== *)

(** C5.  Once [client.Do] has returned a response, the status code is in
    [Meta] under [status]; if the copy of the body then fails, the
    attempt is not connected and its error is the copy error behind the
    prefix [read body failed: ]; if the copy succeeds the attempt is
    connected without error. *)
Theorem C5_http_status_recorded_and_body_error_fails
        (SplitHostPort : string -> option (string * string))
        (p : http.Ping) (ctx : context.Context) (now : time.Time)
        (env : http.Env) (resp : http.Response) :
  http.newRequestErr env = None ->
  let actx := http.attemptCtx p ctx now in
  let done := http.Do SplitHostPort p actx now env (http.trace_ p) now
                      http.initial in
  done.1.2 = net.Ok resp ->
  let stats := (http.Ping_Ping SplitHostPort p ctx now env).2 in
  pinger.Meta stats !! "status" =
    Some (Some (pinger.Int (http.StatusCode resp))) /\
  match (http.copyBody actx done.1.1 env).2.2 with
  | Some err =>
      pinger.Connected stats = false /\
      pinger.Error stats = Some (errors.Errorf_w "read body failed: " err)
  | None =>
      pinger.Connected stats = true /\ pinger.Error stats = None
  end.
Proof.
  intros Hreq actx done Hdone stats. subst stats.
  unfold http.Ping_Ping. rewrite Hreq. fold actx. fold done.
  destruct done as [[t r] s]. simpl in Hdone. subst r. simpl.
  destruct (http.copyBody actx t env) as [t' [n err]]. simpl.
  destruct err as [err|]; simpl; (split; [|split; reflexivity]);
    destruct (n >? 0); try rewrite lookup_insert_ne by discriminate;
      apply lookup_insert_eq.
Qed.

Lemma C5_witness :
  let r := http.Ping_Ping scenario.splitLastColon (scenario.httpProbe true)
                          scenario.schedulerCtx 0 scenario.truncatedBody in
  http.newRequestErr scenario.truncatedBody = None /\
  pinger.Meta r.2 !! "status" = Some (Some (pinger.Int 200)) /\
  pinger.Connected r.2 = false /\
  pinger.Error r.2 =
    Some (errors.Errorf_w "read body failed: " (errors.New "unexpected EOF")).
Proof.
  intros r. split; [reflexivity|].
  pose proof (C5_http_status_recorded_and_body_error_fails
                scenario.splitLastColon (scenario.httpProbe true)
                scenario.schedulerCtx 0 scenario.truncatedBody
                {| http.StatusCode := 200 |} eq_refl eq_refl) as [H1 H2].
  split; [exact H1|]. exact H2.
Defined.

Lemma fire_untraced
      (SplitHostPort : string -> option (string * string))
      (start from upto : time.Time) (sched : httptrace.Schedule)
      (s : http.hookState) :
  httptrace.fire (http.installed SplitHostPort false start) from upto sched s = s.
Proof.
  induction sched as [|[delay ev] rest IH]; simpl; [reflexivity|].
  destruct (from + delay <=? upto); exact IH.
Qed.

(** C10.  An HTTP probe built with tracing disabled returns the empty
    [Address] and a zero [DNSDuration] from every attempt, whatever the
    transport did: both fields are read from a [Trace] that no hook ever
    writes to. *)
Theorem C10_untraced_http_has_no_address
        (SplitHostPort : string -> option (string * string))
        (p : http.Ping) (ctx : context.Context) (now : time.Time)
        (env : http.Env) :
  http.trace_ p = false ->
  pinger.Address (http.Ping_Ping SplitHostPort p ctx now env).2 = "" /\
  pinger.DNSDuration (http.Ping_Ping SplitHostPort p ctx now env).2 = 0.
Proof.
  intros Htr. unfold http.Ping_Ping, http.Do. rewrite Htr.
  destruct (http.newRequestErr env) as [err|]; [split; reflexivity|].
  destruct (context.await (http.attemptCtx p ctx now) now (http.doLatency env)
              (http.doResult env) _) as [t r].
  rewrite fire_untraced.
  destruct r as [resp|err]; [|split; reflexivity].
  destruct (http.copyBody (http.attemptCtx p ctx now) t env) as [t' [n e]].
  destruct e; split; reflexivity.
Qed.

Lemma C10_witness :
  http.trace_ (scenario.httpProbe false) = false /\
  pinger.Address (http.Ping_Ping scenario.splitLastColon (scenario.httpProbe false)
                    scenario.schedulerCtx 0 scenario.wholeBody).2 = "" /\
  pinger.DNSDuration (http.Ping_Ping scenario.splitLastColon
                        (scenario.httpProbe false)
                        scenario.schedulerCtx 0 scenario.wholeBody).2 = 0.
Proof.
  split; [reflexivity|].
  exact (C10_untraced_http_has_no_address scenario.splitLastColon
           (scenario.httpProbe false) scenario.schedulerCtx 0
           scenario.wholeBody eq_refl).
Defined.

(** The same exchange seen by a probe built with tracing enabled. *)
Example traced_http_has_address :
  let r := http.Ping_Ping scenario.splitLastColon (scenario.httpProbe true)
                          scenario.schedulerCtx 0 scenario.wholeBody in
  pinger.Address r.2 = "93.184.216.34" /\
  pinger.DNSDuration r.2 = 3 * scenario.Millisecond.
Proof. vm_compute. split; reflexivity. Qed.

(* ===================================================================== *)
(** ** The run of Ping as a whole *)
(* ===================================================================== *)

Lemma attempt_fields (p : pinger.Pinger) (stats : pinger.Stats) :
  pinger.counter (pinger.attempt p stats) = pinger.counter p /\
  pinger.total (pinger.attempt p stats) = add64 (pinger.total p) 1 /\
  pinger.out (pinger.attempt p stats) = pinger.out p ++ [stats] /\
  pinger.failedTotal (pinger.attempt p stats) =
    (if counted stats then add64 (pinger.failedTotal p) 1
     else pinger.failedTotal p) /\
  pinger.minDuration (pinger.attempt p stats) =
    (if pinger.Connected stats
     then Z.min (pinger.minDuration p) (pinger.Duration stats)
     else pinger.minDuration p) /\
  pinger.maxDuration (pinger.attempt p stats) =
    (if pinger.Connected stats
     then Z.max (pinger.maxDuration p) (pinger.Duration stats)
     else pinger.maxDuration p) /\
  pinger.totalDuration (pinger.attempt p stats) =
    (if pinger.Connected stats
     then add64 (pinger.totalDuration p) (pinger.Duration stats)
     else pinger.totalDuration p).
Proof.
  pose proof (logStats_total p stats) as E1.
  pose proof (logStats_failedTotal p stats) as E2.
  pose proof (logStats_out p stats) as E3.
  destruct (logStats_durations p stats) as (E4 & E5 & E6).
  assert (E0 : pinger.counter (pinger.logStats p stats) = pinger.counter p).
  { unfold pinger.logStats.
    destruct (pinger.Connected stats), (pinger.Error stats) as [e|];
      repeat (simpl; try case_match); reflexivity. }
  unfold pinger.attempt. revert E0 E1 E2 E3 E4 E5 E6.
  generalize (pinger.logStats p stats). intros q E0 E1 E2 E3 E4 E5 E6.
  simpl. rewrite E1. auto 10.
Qed.

(** The loop makes the attempts that [remaining] lists, one after the
    other. *)
Lemma loop_fold (results : list pinger.Stats) (p : pinger.Pinger) :
  pinger.counter p <= 0 \/ pinger.total p < pinger.counter p ->
  0 <= pinger.total p ->
  pinger.total p + Z.of_nat (length results) <= MaxInt64 ->
  pinger.loop p results =
  fold_left pinger.attempt
            (remaining (pinger.counter p) (pinger.total p) results) p.
Proof.
  revert p. induction results as [|stats rest IH]; intros p Hc H0 Hlen.
  - unfold remaining. destruct (pinger.counter p >? 0); [|reflexivity].
    now rewrite take_nil.
  - cbn [pinger.loop]. cbv zeta.
    destruct (attempt_fields p stats) as (Ec & Et & _).
    cbn [length] in Hlen.
    assert (Ew : add64 (pinger.total p) 1 = pinger.total p + 1).
    { apply wrap64_small. unfold in_int64, MinInt64, MaxInt64 in *. lia. }
    rewrite Ew in Et. rewrite Ec, Et. unfold remaining.
    rewrite Z.gtb_ltb, Z.geb_leb.
    destruct (Z.ltb_spec 0 (pinger.counter p)) as [Hpos|Hnp]; simpl.
    + destruct Hc as [Hc|Hc]; [lia|].
      replace (Z.to_nat (pinger.counter p - pinger.total p))
        with (S (Z.to_nat (pinger.counter p - (pinger.total p + 1)))) by lia.
      cbn [take fold_left].
      destruct (Z.leb_spec (pinger.counter p) (pinger.total p + 1)) as [Hr|Hr].
      * replace (Z.to_nat (pinger.counter p - (pinger.total p + 1)))
          with 0%nat by lia.
        now rewrite take_0.
      * rewrite IH; [|rewrite Ec, Et; lia|rewrite Et; lia|rewrite Et; lia].
        rewrite Ec, Et. unfold remaining. rewrite Z.gtb_ltb.
        destruct (Z.ltb_spec 0 (pinger.counter p)); [reflexivity|lia].
    + cbn [fold_left].
      rewrite IH; [|rewrite Ec; lia|rewrite Et; lia|rewrite Et; lia].
      rewrite Ec. unfold remaining. rewrite Z.gtb_ltb.
      destruct (Z.ltb_spec 0 (pinger.counter p)); [lia|reflexivity].
Qed.

Lemma minOver_snoc (init : Z) (l : list pinger.Stats) (r : pinger.Stats) :
  minOver init (l ++ [r]) =
  if pinger.Connected r then Z.min (minOver init l) (pinger.Duration r)
  else minOver init l.
Proof.
  unfold minOver. rewrite foldr_app. simpl.
  destruct (pinger.Connected r); [|reflexivity].
  induction l as [|x l IH]; simpl; [lia|].
  destruct (pinger.Connected x); [|exact IH]. rewrite IH. lia.
Qed.

Lemma maxOver_snoc (init : Z) (l : list pinger.Stats) (r : pinger.Stats) :
  maxOver init (l ++ [r]) =
  if pinger.Connected r then Z.max (maxOver init l) (pinger.Duration r)
  else maxOver init l.
Proof.
  unfold maxOver. rewrite foldr_app. simpl.
  destruct (pinger.Connected r); [|reflexivity].
  induction l as [|x l IH]; simpl; [lia|].
  destruct (pinger.Connected x); [|exact IH]. rewrite IH. lia.
Qed.

Lemma sumOver_app (l k : list pinger.Stats) :
  sumOver (l ++ k) = sumOver l + sumOver k.
Proof.
  induction l as [|x l IH]; simpl; [reflexivity|].
  fold (sumOver (l ++ k)). fold (sumOver l).
  destruct (pinger.Connected x); lia.
Qed.

Lemma sumOver_nonneg (l : list pinger.Stats) :
  Forall (fun r => 0 <= pinger.Duration r) l -> 0 <= sumOver l.
Proof.
  induction 1 as [|x l Hx Hl IH]; simpl; [lia|].
  fold (sumOver l). destruct (pinger.Connected x); lia.
Qed.

(** What a sequence of attempts leaves in the counters. *)
Lemma fold_attempt_counters (l : list pinger.Stats) (p : pinger.Pinger) :
  0 <= pinger.failedTotal p <= pinger.total p ->
  pinger.total p + Z.of_nat (length l) <= MaxInt64 ->
  let q := fold_left pinger.attempt l p in
  pinger.url q = pinger.url p /\
  pinger.out q = pinger.out p ++ l /\
  pinger.total q = pinger.total p + Z.of_nat (length l) /\
  pinger.failedTotal q = pinger.failedTotal p + Z.of_nat (length (failures l)) /\
  pinger.minDuration q = minOver (pinger.minDuration p) (reverse l) /\
  pinger.maxDuration q = maxOver (pinger.maxDuration p) (reverse l).
Proof.
  revert p. induction l as [|stats rest IH]; intros p Hf Hlen q; subst q.
  - simpl. rewrite app_nil_r. repeat split; lia.
  - cbn [fold_left length] in *.
    destruct (attempt_fields p stats) as (Ec & Et & Eo & Ef & Emin & Emax & _).
    pose proof (attempt_url p stats) as Eu.
    assert (Ew : add64 (pinger.total p) 1 = pinger.total p + 1).
    { apply wrap64_small. unfold in_int64, MinInt64, MaxInt64 in *. lia. }
    assert (Ewf : add64 (pinger.failedTotal p) 1 = pinger.failedTotal p + 1).
    { apply wrap64_small. unfold in_int64, MinInt64, MaxInt64 in *. lia. }
    rewrite Ew in Et. rewrite Ewf in Ef.
    destruct (IH (pinger.attempt p stats)) as (I0 & I1 & I2 & I3 & I4 & I5).
    { rewrite Ef, Et. destruct (counted stats); lia. }
    { rewrite Et. lia. }
    rewrite I0, I1, I2, I3, I4, I5, Eu, Eo, Et, Ef, Emin, Emax.
    rewrite reverse_cons, minOver_snoc, maxOver_snoc.
    rewrite <- app_assoc. simpl. unfold failures. rewrite filter_cons.
    repeat split; try lia.
    + destruct (decide (counted stats = true)) as [E|E].
      * rewrite E. simpl. lia.
      * destruct (counted stats); [congruence|]. lia.
    + destruct (pinger.Connected stats); [|reflexivity].
      clear. induction (reverse rest) as [|x l IHl]; simpl; [lia|].
      destruct (pinger.Connected x); [|exact IHl]. lia.
    + destruct (pinger.Connected stats); [|reflexivity].
      clear. induction (reverse rest) as [|x l IHl]; simpl; [lia|].
      destruct (pinger.Connected x); [|exact IHl]. lia.
Qed.

Lemma minOver_reverse (init : Z) (l : list pinger.Stats) :
  minOver init (reverse l) = minOver init l.
Proof.
  induction l as [|x l IH]; [reflexivity|].
  rewrite reverse_cons, minOver_snoc, IH. simpl. fold (minOver init l).
  destruct (pinger.Connected x); lia.
Qed.

Lemma maxOver_reverse (init : Z) (l : list pinger.Stats) :
  maxOver init (reverse l) = maxOver init l.
Proof.
  induction l as [|x l IH]; [reflexivity|].
  rewrite reverse_cons, maxOver_snoc, IH. simpl. fold (maxOver init l).
  destruct (pinger.Connected x); lia.
Qed.

Lemma minOver_attained (init : Z) (l : list pinger.Stats) :
  minOver init l = init \/
  exists r, r ∈ l /\ pinger.Connected r = true /\
            pinger.Duration r = minOver init l.
Proof.
  induction l as [|x l IH]; [now left|].
  simpl. fold (minOver init l).
  destruct (pinger.Connected x) eqn:Hc.
  - destruct (Z.min_spec (pinger.Duration x) (minOver init l)) as [[_ E]|[_ E]];
      rewrite E.
    + right. exists x. split; [apply list_elem_of_here|]. auto.
    + destruct IH as [IH|(r & Hr & Hcr & Hd)]; [now left|].
      right. exists r. split; [now apply list_elem_of_further|]. auto.
  - destruct IH as [IH|(r & Hr & Hcr & Hd)]; [now left|].
    right. exists r. split; [now apply list_elem_of_further|]. auto.
Qed.

Lemma maxOver_attained (init : Z) (l : list pinger.Stats) :
  maxOver init l = init \/
  exists r, r ∈ l /\ pinger.Connected r = true /\
            pinger.Duration r = maxOver init l.
Proof.
  induction l as [|x l IH]; [now left|].
  simpl. fold (maxOver init l).
  destruct (pinger.Connected x) eqn:Hc.
  - destruct (Z.max_spec (pinger.Duration x) (maxOver init l)) as [[_ E]|[_ E]];
      rewrite E.
    + destruct IH as [IH|(r & Hr & Hcr & Hd)]; [now left|].
      right. exists r. split; [now apply list_elem_of_further|]. auto.
    + right. exists x. split; [apply list_elem_of_here|]. auto.
  - destruct IH as [IH|(r & Hr & Hcr & Hd)]; [now left|].
    right. exists r. split; [now apply list_elem_of_further|]. auto.
Qed.

(** The state [Ping] starts the loop from, and what the loop makes of it. *)
Lemma Ping_counters (url : string) (interval counter timeout : Z)
      (results : list pinger.Stats) :
  Z.of_nat (length results) <= MaxInt64 ->
  let p := pinger.Ping (pinger.NewPinger url interval counter timeout) results in
  let made := remaining counter 0 results in
  pinger.url p = url /\
  pinger.out p = made /\
  pinger.total p = Z.of_nat (length made) /\
  pinger.failedTotal p = Z.of_nat (length (failures made)) /\
  pinger.minDuration p = minOver MaxInt64 made /\
  pinger.maxDuration p = maxOver 0 made.
Proof.
  intros Hlen p made. subst p. unfold pinger.Ping.
  set (p0 := pinger.set_minDuration _ _).
  assert (H0 : pinger.counter p0 = counter /\ pinger.total p0 = 0 /\
               pinger.failedTotal p0 = 0 /\ pinger.out p0 = [] /\
               pinger.minDuration p0 = MaxInt64 /\ pinger.maxDuration p0 = 0 /\
               pinger.url p0 = url).
  { subst p0. unfold pinger.NewPinger. simpl. auto 10. }
  destruct H0 as (Hc & Ht & Hf & Ho & Hmin & Hmax & Hu).
  rewrite loop_fold; rewrite ?Hc, ?Ht; try lia.
  fold made.
  assert (Hmade : Z.of_nat (length made) <= Z.of_nat (length results)).
  { subst made. unfold remaining. destruct (counter >? 0); [|lia].
    rewrite length_take. lia. }
  destruct (fold_attempt_counters made p0) as (I0 & I1 & I2 & I3 & I4 & I5).
  { rewrite Hf, Ht. lia. }
  { rewrite Ht. lia. }
  rewrite I0, I1, I2, I3, I4, I5, Hu, Ho, Ht, Hf, Hmin, Hmax.
  rewrite minOver_reverse, maxOver_reverse. simpl. repeat split; lia.
Qed.

(** With a positive counter the run makes that many attempts and no
    more, or all the attempts that could be made before it was stopped
    when those are fewer; without one it makes them all.  One line is
    written per attempt made, in order. *)
Theorem counter_bounds_the_run
        (url : string) (interval counter timeout : Z)
        (results : list pinger.Stats) :
  Z.of_nat (length results) <= MaxInt64 ->
  let p := pinger.Ping (pinger.NewPinger url interval counter timeout) results in
  (0 < counter <= Z.of_nat (length results) ->
   pinger.total p = counter /\
   pinger.out p = take (Z.to_nat counter) results) /\
  (counter <= 0 \/ Z.of_nat (length results) <= counter ->
   pinger.total p = Z.of_nat (length results) /\ pinger.out p = results).
Proof.
  intros Hlen p.
  destruct (Ping_counters url interval counter timeout results Hlen)
    as (_ & Ho & Ht & _).
  fold p in Ho, Ht. rewrite Ho, Ht. unfold remaining. rewrite Z.gtb_ltb, Z.sub_0_r.
  split.
  - intros [Hpos Hle]. destruct (Z.ltb_spec 0 counter); [|lia].
    split; [|reflexivity]. rewrite length_take. lia.
  - intros Hall. destruct (Z.ltb_spec 0 counter) as [Hpos|Hnp]; [|auto].
    destruct Hall as [Hall|Hall]; [lia|].
    rewrite take_ge by lia. auto.
Qed.

Lemma counter_bounds_the_run_witness :
  let results := [scenario.connected 30; scenario.failed 7 scenario.refused;
                  scenario.connected 10] in
  let p := pinger.Ping (pinger.NewPinger "tcp://example.org:80" 0 2 0) results in
  pinger.total p = 2 /\
  pinger.out p = [scenario.connected 30; scenario.failed 7 scenario.refused].
Proof.
  intros results p.
  assert (Hlen : Z.of_nat (length results) <= MaxInt64) by (vm_compute; discriminate).
  assert (Hc : 0 < 2 <= Z.of_nat (length results)) by (vm_compute; split; [reflexivity|discriminate]).
  exact (proj1 (counter_bounds_the_run "tcp://example.org:80" 0 2 0 results Hlen) Hc).
Defined.

Lemma failures_nonFailures (l : list pinger.Stats) :
  (length (failures l) + length (nonFailures l))%nat = length l.
Proof.
  unfold failures, nonFailures. induction l as [|x l IH]; [reflexivity|].
  rewrite !filter_cons. destruct (counted x); simpl.
  - destruct (decide (true = true)); [|congruence].
    destruct (decide (true = false)); [congruence|]. simpl. lia.
  - destruct (decide (false = true)); [congruence|].
    destruct (decide (false = false)); [|congruence]. simpl. lia.
Qed.

Lemma minOver_le (init : Z) (l : list pinger.Stats) (r : pinger.Stats) :
  r ∈ l -> pinger.Connected r = true -> minOver init l <= pinger.Duration r.
Proof.
  induction l as [|x l IH]; intros Hr Hc.
  - apply elem_of_nil in Hr. contradiction.
  - simpl. fold (minOver init l). apply elem_of_cons in Hr as [->|Hr].
    + rewrite Hc. lia.
    + specialize (IH Hr Hc). destruct (pinger.Connected x); lia.
Qed.

Lemma maxOver_ge (init : Z) (l : list pinger.Stats) (r : pinger.Stats) :
  r ∈ l -> pinger.Connected r = true -> pinger.Duration r <= maxOver init l.
Proof.
  induction l as [|x l IH]; intros Hr Hc.
  - apply elem_of_nil in Hr. contradiction.
  - simpl. fold (maxOver init l). apply elem_of_cons in Hr as [->|Hr].
    + rewrite Hc. lia.
    + specialize (IH Hr Hc). destruct (pinger.Connected x); lia.
Qed.

(** C6.  Along every run of [Ping] on a fresh [Pinger], however long it
    lasts before it is stopped.  Let [made] be the results the loop has
    processed: all of [results], or the first [counter] of them when the
    counter ends the run earlier.  Then one line was written per result
    processed, the attempt count is their number, the failure count
    never exceeds it, the minimum and the maximum bracket the duration
    of every connected result processed, and a result that is not
    connected leaves minimum, maximum and sum untouched. *)
Theorem C6_running_stats_invariant
        (url : string) (interval counter timeout : Z)
        (results : list pinger.Stats) :
  Z.of_nat (length results) <= MaxInt64 ->
  let p := pinger.Ping (pinger.NewPinger url interval counter timeout) results in
  let made := remaining counter 0 results in
  pinger.out p = made /\
  pinger.total p = Z.of_nat (length made) /\
  0 <= pinger.failedTotal p <= pinger.total p /\
  (forall r, r ∈ made -> pinger.Connected r = true ->
             pinger.minDuration p <= pinger.Duration r <= pinger.maxDuration p) /\
  (forall q r, pinger.Connected r = false ->
               pinger.minDuration (pinger.logStats q r) = pinger.minDuration q /\
               pinger.maxDuration (pinger.logStats q r) = pinger.maxDuration q /\
               pinger.totalDuration (pinger.logStats q r) = pinger.totalDuration q).
Proof.
  intros Hlen p made.
  destruct (Ping_counters url interval counter timeout results Hlen)
    as (_ & Ho & Ht & Hf & Hmin & Hmax).
  fold p made in Ho, Ht, Hf, Hmin, Hmax.
  split; [exact Ho|]. split; [exact Ht|]. split.
  - rewrite Hf, Ht. pose proof (failures_nonFailures made). lia.
  - split.
    + intros r Hr Hc. rewrite Hmin, Hmax.
      split; [now apply minOver_le|now apply maxOver_ge].
    + intros q r Hc. destruct (logStats_durations q r) as (H1 & H2 & H3).
      rewrite Hc in H1, H2, H3. auto.
Qed.

Lemma C6_witness :
  let results := [scenario.connected 30; scenario.failed 7 scenario.refused;
                  scenario.connected 10] in
  Z.of_nat (length results) <= MaxInt64 /\
  let p := pinger.Ping scenario.fresh results in
  pinger.total p = 3 /\
  0 <= pinger.failedTotal p <= pinger.total p /\
  (forall r, r ∈ results -> pinger.Connected r = true ->
             pinger.minDuration p <= pinger.Duration r <= pinger.maxDuration p).
Proof.
  intros results.
  assert (H : Z.of_nat (length results) <= MaxInt64) by (vm_compute; discriminate).
  split; [exact H|].
  pose proof (C6_running_stats_invariant
                "tcp://example.org:80" time.Second 0 time.Second results H)
    as (_ & Ht & Hf & Hd & _).
  split; [exact Ht|]. split; [exact Hf|exact Hd].
Defined.

(** In the summary of a run, the failed count is the number of attempts
    whose error is neither nil nor a wrapped [context.Canceled], the
    successful count is the number of all the other attempts, connected
    or not, and the two add up to the number of probes sent. *)
Theorem summary_counts
        (url : string) (interval counter timeout : Z)
        (results : list pinger.Stats) :
  Z.of_nat (length results) <= MaxInt64 ->
  let p := pinger.Ping (pinger.NewPinger url interval counter timeout) results in
  let d := pinger.summarize p in
  pinger.sd_Total d = Z.of_nat (length (pinger.out p)) /\
  pinger.sd_FailedTotal d = Z.of_nat (length (failures (pinger.out p))) /\
  pinger.sd_SuccessTotal d = Z.of_nat (length (nonFailures (pinger.out p))) /\
  pinger.sd_SuccessTotal d + pinger.sd_FailedTotal d = pinger.sd_Total d.
Proof.
  intros Hlen p d.
  destruct (Ping_counters url interval counter timeout results Hlen)
    as (_ & Ho & Ht & Hf & _).
  fold p in Ho, Ht, Hf. subst d. unfold pinger.summarize.
  destruct (pinger.total p >? 0); simpl; rewrite Ho, Ht, Hf;
    pose proof (failures_nonFailures (remaining counter 0 results)) as Hsum;
    assert (Hmade : Z.of_nat (length (remaining counter 0 results))
                    <= Z.of_nat (length results))
      by (unfold remaining; destruct (counter >? 0); [rewrite length_take|]; lia);
    (assert (Hw : sub64 (Z.of_nat (length (remaining counter 0 results)))
                        (Z.of_nat (length (failures (remaining counter 0 results))))
                  = Z.of_nat (length (nonFailures (remaining counter 0 results))));
     [unfold sub64; rewrite wrap64_small;
      [lia|unfold in_int64, MinInt64, MaxInt64 in *; lia]|]);
    rewrite Hw; repeat split; lia.
Qed.

Lemma summary_counts_witness :
  let results := [scenario.connected 30; scenario.failed 7 scenario.canceled;
                  scenario.failed 9 scenario.refused] in
  let d := pinger.summarize (pinger.Ping scenario.fresh results) in
  pinger.sd_Total d = 3 /\ pinger.sd_FailedTotal d = 1 /\
  pinger.sd_SuccessTotal d = 2.
Proof.
  intros results d.
  assert (Hlen : Z.of_nat (length results) <= MaxInt64) by (vm_compute; discriminate).
  pose proof (summary_counts "tcp://example.org:80" time.Second 0 time.Second
                results Hlen) as (H1 & H2 & H3 & _).
  split; [exact H1|]. split; [exact H2|exact H3].
Defined.

(** After a run, the minimum held by the [Pinger] is the least of
    [math.MaxInt64] and the durations of the connected attempts the loop
    made, and the maximum is the greatest of 0 and those durations: each
    is its starting value or the duration of a connected attempt among
    those made. *)
Theorem extremes_are_attained
        (url : string) (interval counter timeout : Z)
        (results : list pinger.Stats) :
  Z.of_nat (length results) <= MaxInt64 ->
  let p := pinger.Ping (pinger.NewPinger url interval counter timeout) results in
  let made := remaining counter 0 results in
  pinger.minDuration p = minOver MaxInt64 made /\
  pinger.maxDuration p = maxOver 0 made /\
  (pinger.minDuration p = MaxInt64 \/
   exists r, r ∈ made /\ pinger.Connected r = true /\
             pinger.Duration r = pinger.minDuration p) /\
  (pinger.maxDuration p = 0 \/
   exists r, r ∈ made /\ pinger.Connected r = true /\
             pinger.Duration r = pinger.maxDuration p).
Proof.
  intros Hlen p made.
  destruct (Ping_counters url interval counter timeout results Hlen)
    as (_ & _ & _ & _ & Hmin & Hmax).
  fold p made in Hmin, Hmax. rewrite Hmin, Hmax.
  split; [reflexivity|]. split; [reflexivity|].
  split; [apply minOver_attained|apply maxOver_attained].
Qed.

Lemma extremes_are_attained_witness :
  let results := [scenario.connected 30; scenario.failed 7 scenario.refused;
                  scenario.connected 10] in
  let p := pinger.Ping scenario.fresh results in
  pinger.minDuration p = minOver MaxInt64 results /\
  pinger.maxDuration p = maxOver 0 results.
Proof.
  intros results p.
  assert (Hlen : Z.of_nat (length results) <= MaxInt64) by (vm_compute; discriminate).
  pose proof (extremes_are_attained "tcp://example.org:80" time.Second 0
                time.Second results Hlen) as (H1 & H2 & _).
  split; [exact H1|exact H2].
Defined.

Lemma fold_attempt_sum (l : list pinger.Stats) (p : pinger.Pinger) :
  Forall (fun r => 0 <= pinger.Duration r) l ->
  0 <= pinger.totalDuration p ->
  pinger.totalDuration p + sumOver l <= MaxInt64 ->
  pinger.totalDuration (fold_left pinger.attempt l p) =
  pinger.totalDuration p + sumOver l.
Proof.
  intros Hall. revert p. induction Hall as [|stats rest Hd Hrest IH];
    intros p H0 Hmax.
  - simpl. lia.
  - cbn [fold_left]. simpl in Hmax. fold (sumOver rest) in Hmax.
    pose proof (sumOver_nonneg rest Hrest) as Hnn.
    destruct (attempt_fields p stats) as (_ & _ & _ & _ & _ & _ & Es).
    simpl. fold (sumOver rest).
    destruct (pinger.Connected stats).
    + assert (Ew : add64 (pinger.totalDuration p) (pinger.Duration stats)
                   = pinger.totalDuration p + pinger.Duration stats).
      { apply wrap64_small. unfold in_int64, MinInt64, MaxInt64 in *. lia. }
      rewrite Ew in Es. rewrite IH; rewrite Es; lia.
    + rewrite IH; rewrite Es; lia.
Qed.

Lemma sumOver_take_le (n : nat) (l : list pinger.Stats) :
  Forall (fun r => 0 <= pinger.Duration r) l ->
  sumOver (take n l) <= sumOver l.
Proof.
  intros Hall. rewrite <- (take_drop n l) at 2. rewrite sumOver_app.
  pose proof (sumOver_nonneg (drop n l) (Forall_drop _ n l Hall)). lia.
Qed.

Lemma Ping_totalDuration
        (url : string) (interval counter timeout : Z)
        (results : list pinger.Stats) :
  Z.of_nat (length results) <= MaxInt64 ->
  Forall (fun r => 0 <= pinger.Duration r) results ->
  sumOver results <= MaxInt64 ->
  let p := pinger.Ping (pinger.NewPinger url interval counter timeout) results in
  pinger.totalDuration p = sumOver (remaining counter 0 results).
Proof.
  intros Hlen Hall Hsum p.
  subst p. unfold pinger.Ping.
  set (p0 := pinger.set_minDuration _ _).
  assert (H0 : pinger.counter p0 = counter /\ pinger.total p0 = 0 /\
               pinger.totalDuration p0 = 0).
  { subst p0. unfold pinger.NewPinger. simpl. auto. }
  destruct H0 as (Hc & Ht & Hs).
  rewrite loop_fold; rewrite ?Hc, ?Ht; try lia.
  assert (Hmade : Forall (fun r => 0 <= pinger.Duration r)
                         (remaining counter 0 results) /\
                  sumOver (remaining counter 0 results) <= sumOver results).
  { unfold remaining. destruct (counter >? 0); [|split; [exact Hall|lia]].
    split; [now apply Forall_take|now apply sumOver_take_le]. }
  destruct Hmade as [Hm1 Hm2].
  rewrite fold_attempt_sum; rewrite ?Hs; try assumption; lia.
Qed.

(** The sum held by the [Pinger] after a run is the sum of the durations
    of the connected attempts among those the loop made, as long as no
    duration is negative and that sum fits a [Duration]. *)
Theorem total_duration_is_the_connected_sum
        (url : string) (interval counter timeout : Z)
        (results : list pinger.Stats) :
  Z.of_nat (length results) <= MaxInt64 ->
  Forall (fun r => 0 <= pinger.Duration r) results ->
  sumOver results <= MaxInt64 ->
  let p := pinger.Ping (pinger.NewPinger url interval counter timeout) results in
  pinger.totalDuration p = sumOver (remaining counter 0 results).
Proof.
  intros Hlen Hall Hsum.
  exact (Ping_totalDuration url interval counter timeout results Hlen Hall Hsum).
Qed.

Lemma total_duration_is_the_connected_sum_witness :
  let results := [scenario.connected 30; scenario.failed 7 scenario.refused;
                  scenario.connected 10] in
  sumOver results <= MaxInt64 /\
  pinger.totalDuration (pinger.Ping scenario.fresh results) = sumOver results.
Proof.
  intros results.
  assert (Hlen : Z.of_nat (length results) <= MaxInt64) by (vm_compute; discriminate).
  assert (Hall : Forall (fun r => 0 <= pinger.Duration r) results).
  { repeat constructor; vm_compute; discriminate. }
  assert (Hsum : sumOver results <= MaxInt64) by (vm_compute; discriminate).
  split; [exact Hsum|].
  exact (total_duration_is_the_connected_sum "tcp://example.org:80" time.Second 0
           time.Second results Hlen Hall Hsum).
Defined.

Lemma maxOver_ge_init (init : Z) (l : list pinger.Stats) : init <= maxOver init l.
Proof.
  induction l as [|x l IH]; simpl; [lia|]. fold (maxOver init l).
  destruct (pinger.Connected x); lia.
Qed.

Lemma sumOver_le_max (l : list pinger.Stats) :
  sumOver l <= Z.of_nat (length l) * maxOver 0 l.
Proof.
  induction l as [|x l IH]; [simpl; lia|].
  pose proof (maxOver_ge_init 0 l) as Hge.
  cbn [length]. simpl. fold (sumOver l). fold (maxOver 0 l).
  destruct (pinger.Connected x); nia.
Qed.

Lemma min_le_sumOver (init : Z) (l : list pinger.Stats) :
  Forall (fun r => pinger.Connected r = true) l ->
  Z.of_nat (length l) * minOver init l <= sumOver l.
Proof.
  induction 1 as [|x l Hx Hl IH]; [simpl; lia|].
  cbn [length]. simpl. fold (sumOver l). fold (minOver init l).
  rewrite Hx. nia.
Qed.

(** The average printed by [Summarize] after a run whose durations are
    not negative and do not overflow their sum: it never exceeds the
    printed maximum, and when every attempt made was connected it is not
    below the printed minimum. *)
Theorem average_within_extremes
        (url : string) (interval counter timeout : Z)
        (results : list pinger.Stats) :
  Z.of_nat (length results) <= MaxInt64 ->
  Forall (fun r => 0 <= pinger.Duration r) results ->
  sumOver results <= MaxInt64 ->
  let p := pinger.Ping (pinger.NewPinger url interval counter timeout) results in
  let d := pinger.summarize p in
  pinger.sd_AvgDuration d <= pinger.sd_MaxDuration d /\
  (Forall (fun r => pinger.Connected r = true) results ->
   pinger.sd_MinDuration d <= pinger.sd_AvgDuration d).
Proof.
  intros Hlen Hall Hsum p d.
  pose proof (Ping_totalDuration
                url interval counter timeout results Hlen Hall Hsum) as Hs.
  destruct (Ping_counters url interval counter timeout results Hlen)
    as (_ & Ho & Ht & _ & Hmin & Hmax).
  cbv zeta in Hs. fold p in Hs, Ho, Ht, Hmin, Hmax.
  set (made := remaining counter 0 results) in *.
  assert (Hm : Forall (fun r => 0 <= pinger.Duration r) made /\
               sumOver made <= sumOver results).
  { subst made. unfold remaining. destruct (counter >? 0); [|split; [exact Hall|lia]].
    split; [now apply Forall_take|now apply sumOver_take_le]. }
  destruct Hm as [Hm1 Hm2].
  pose proof (sumOver_nonneg made Hm1) as Hnn.
  subst d. unfold pinger.summarize. rewrite Z.gtb_ltb.
  destruct (Z.ltb_spec 0 (pinger.total p)) as [Hpos|Hz]; simpl.
  - rewrite Hs, Ht, Hmin, Hmax.
    assert (Hq : div64 (sumOver made) (Z.of_nat (length made))
                 = sumOver made / Z.of_nat (length made)).
    { unfold div64. rewrite Z.quot_div_nonneg by lia.
      apply wrap64_small. unfold in_int64, MinInt64, MaxInt64 in *.
      pose proof (Z.div_pos (sumOver made) (Z.of_nat (length made))
                    ltac:(lia) ltac:(lia)).
      pose proof (Z.div_le_upper_bound (sumOver made) (Z.of_nat (length made))
                    (sumOver made) ltac:(lia) ltac:(nia)).
      lia. }
    rewrite Hq. split.
    + apply Z.div_le_upper_bound; [lia|]. apply sumOver_le_max.
    + intros Hconn. apply Z.div_le_lower_bound; [lia|].
      apply min_le_sumOver.
      subst made. unfold remaining. destruct (counter >? 0); [|exact Hconn].
      now apply Forall_take.
  - split; [lia|]. intros _. lia.
Qed.

Lemma average_within_extremes_witness :
  let results := [scenario.connected 30; scenario.connected 10] in
  let d := pinger.summarize (pinger.Ping scenario.fresh results) in
  pinger.sd_MinDuration d <= pinger.sd_AvgDuration d <= pinger.sd_MaxDuration d.
Proof.
  intros results d.
  assert (Hlen : Z.of_nat (length results) <= MaxInt64) by (vm_compute; discriminate).
  assert (Hall : Forall (fun r => 0 <= pinger.Duration r) results).
  { repeat constructor; vm_compute; discriminate. }
  assert (Hsum : sumOver results <= MaxInt64) by (vm_compute; discriminate).
  assert (Hconn : Forall (fun r => pinger.Connected r = true) results).
  { repeat constructor. }
  pose proof (average_within_extremes "tcp://example.org:80" time.Second 0
                time.Second results Hlen Hall Hsum) as [H1 H2].
  split; [exact (H2 Hconn)|exact H1].
Defined.

(** [Summarize] prints the trip times exactly when the run made an
    attempt: after a run that made none the last line is the notice, and
    after any other run it shows the minimum, the maximum and the sum
    divided by the number of attempts. *)
Theorem summary_branch_follows_attempts
        (Duration_String : Z -> string)
        (url : string) (interval counter timeout : Z)
        (results : list pinger.Stats) :
  Z.of_nat (length results) <= MaxInt64 ->
  let p := pinger.Ping (pinger.NewPinger url interval counter timeout) results in
  (results = [] ->
   pinger.Summarize Duration_String p =
     spec_summaryHead url 0 0 0
       +:+ pinger.nl +:+ "    No probes completed successfully.") /\
  (results <> [] ->
   pinger.Summarize Duration_String p =
     spec_summaryHead url (pinger.total p)
                      (sub64 (pinger.total p) (pinger.failedTotal p))
                      (pinger.failedTotal p)
       +:+ pinger.nl +:+ "    Minimum = " +:+ Duration_String (pinger.minDuration p)
       +:+ ", Maximum = " +:+ Duration_String (pinger.maxDuration p)
       +:+ ", Average = "
       +:+ Duration_String (div64 (pinger.totalDuration p) (pinger.total p))).
Proof.
  intros Hlen p.
  destruct (Ping_counters url interval counter timeout results Hlen)
    as (Hu & _ & Ht & _).
  fold p in Hu, Ht. split.
  - intros ->. subst p. unfold pinger.Summarize, pinger.summarize,
      pinger.executeSummaryTpl, spec_summaryHead. simpl.
    rewrite !string_app_assoc. reflexivity.
  - intros Hne.
    assert (Hpos : 0 < pinger.total p).
    { rewrite Ht. unfold remaining. rewrite Z.gtb_ltb, Z.sub_0_r.
      destruct results as [|r rest]; [congruence|].
      destruct (Z.ltb_spec 0 counter) as [Hc|Hc]; [|simpl; lia].
      replace (Z.to_nat counter) with (S (Z.to_nat (counter - 1))) by lia.
      simpl. lia. }
    unfold pinger.Summarize, pinger.summarize, pinger.executeSummaryTpl,
      spec_summaryHead.
    rewrite Z.gtb_ltb. destruct (Z.ltb_spec 0 (pinger.total p)); [|lia].
    simpl. destruct (Z.eqb_spec (pinger.total p) 0); [lia|]. simpl.
    rewrite Hu, !string_app_assoc. reflexivity.
Qed.

Lemma summary_branch_follows_attempts_witness :
  pinger.Summarize plain_Duration_String (pinger.Ping scenario.fresh []) =
  spec_summaryHead "tcp://example.org:80" 0 0 0
    +:+ pinger.nl +:+ "    No probes completed successfully.".
Proof.
  assert (Hlen : Z.of_nat (length (@nil pinger.Stats)) <= MaxInt64)
    by (vm_compute; discriminate).
  exact (proj1 (summary_branch_follows_attempts plain_Duration_String
                  "tcp://example.org:80" time.Second 0 time.Second [] Hlen)
               eq_refl).
Defined.

(* ===================================================================== *)
(** ** The size FormatMeta reserves *)
(* ===================================================================== *)

Lemma string_length_app (a b : string) :
  String.length (a +:+ b) = (String.length a + String.length b)%nat.
Proof.
  induction a as [|x a IH]; [reflexivity|].
  change (S (String.length (a +:+ b)) = S (String.length a + String.length b)).
  now rewrite IH.
Qed.

Lemma estimateSum_nonneg m keys : 0 <= estimateSum m keys.
Proof.
  induction keys as [|k rest IH]; simpl; [lia|].
  unfold formatmeta.len. destruct (nilValued m k); lia.
Qed.

Lemma estimate_exact m keys acc :
  0 <= acc -> acc + estimateSum m keys <= MaxInt64 ->
  formatmeta.estimate m keys acc = acc + estimateSum m keys.
Proof.
  revert acc. induction keys as [|k rest IH]; intros acc H0 Hmax.
  - simpl. lia.
  - cbn [formatmeta.estimate estimateSum] in *.
    pose proof (estimateSum_nonneg m rest) as Hnn.
    assert (Hk : 0 <= formatmeta.len k) by (unfold formatmeta.len; lia).
    unfold nilValued, spec_renderValue in *.
    assert (Hs : forall z, 0 <= z <= MaxInt64 -> wrap64 z = z).
    { intros z Hz. apply wrap64_small.
      unfold in_int64, MinInt64, MaxInt64 in *. lia. }
    destruct (m !! k) as [[v|]|].
    + assert (Hv : 0 <= formatmeta.len (pinger.String v))
        by (unfold formatmeta.len; lia).
      unfold add64. rewrite (Hs (formatmeta.len k + 1)) by lia.
      rewrite (Hs (acc + _)) by lia. rewrite (Hs (acc + _ + _)) by lia.
      rewrite (Hs (acc + _ + _ + 1)) by lia.
      rewrite IH; lia.
    + unfold add64. rewrite (Hs (formatmeta.len k + 1)) by lia.
      rewrite (Hs (acc + _)) by lia. rewrite (Hs (acc + _ + 1)) by lia.
      rewrite IH; lia.
    + unfold add64. rewrite (Hs (formatmeta.len k + 1)) by lia.
      rewrite (Hs (acc + _)) by lia. rewrite (Hs (acc + _ + 1)) by lia.
      rewrite IH; lia.
Qed.

Lemma concat_cons2 (sep a b : string) (l : list string) :
  String.concat sep (a :: b :: l) = a +:+ sep +:+ String.concat sep (b :: l).
Proof. reflexivity. Qed.

Lemma renderPair_length m k :
  formatmeta.len (spec_renderPair m k) =
  formatmeta.len k + 1
  + (if nilValued m k then 0 else formatmeta.len (spec_renderValue (m !! k)))
  + (if nilValued m k then 5 else 0).
Proof.
  unfold spec_renderPair, formatmeta.len, nilValued, spec_renderValue.
  rewrite !string_length_app.
  destruct (m !! k) as [[v|]|]; simpl; lia.
Qed.

Lemma joinPairs_length m keys :
  formatmeta.len (spec_joinPairs m keys) =
  match keys with
  | [] => 0
  | _ :: _ =>
      estimateSum m keys
      + 5 * Z.of_nat (length (filter (fun k => nilValued m k = true) keys)) - 1
  end.
Proof.
  induction keys as [|k rest IH]; [reflexivity|].
  pose proof (renderPair_length m k) as Hp.
  assert (Hf : Z.of_nat (length (filter (fun k => nilValued m k = true) (k :: rest)))
               = (if nilValued m k then 1 else 0)
                 + Z.of_nat (length (filter (fun k => nilValued m k = true) rest))).
  { rewrite filter_cons. destruct (decide (nilValued m k = true)) as [E|E].
    - rewrite E. cbn [length]. lia.
    - destruct (nilValued m k); [congruence|]. lia. }
  rewrite Hf. cbn [estimateSum].
  destruct rest as [|k' rest'].
  - unfold spec_joinPairs. cbn [map String.concat estimateSum filter length].
    rewrite Hp, filter_nil. cbn [length]. destruct (nilValued m k); lia.
  - unfold spec_joinPairs in *. cbn [map]. rewrite concat_cons2.
    change (map (spec_renderPair m) (k' :: rest'))
      with (spec_renderPair m k' :: map (spec_renderPair m) rest') in IH.
    unfold formatmeta.len in *. rewrite !string_length_app, !Nat2Z.inj_add.
    rewrite IH, Hp. change (Z.of_nat (String.length " ")) with 1.
    destruct (nilValued m k); lia.
Qed.

(** The capacity [FormatMeta] reserves is the length of the string it
    returns when no value of the map is nil; each nil value, written
    [<nil>], makes the string five bytes longer than the capacity. *)
Theorem FormatMeta_reserves_its_length
        (s : pinger.Stats) (order : list string) :
  pinger.range_order (pinger.Meta s) order ->
  formatmeta.len (pinger.FormatMeta order s) < MaxInt64 ->
  formatmeta.estimatedLen order s
  + 5 * Z.of_nat (length (filter (fun k => nilValued (pinger.Meta s) k = true) order))
  = formatmeta.len (pinger.FormatMeta order s).
Proof.
  intros Hr Hlen. rewrite FormatMeta_join in * by exact Hr.
  assert (Hperm : length (filter (fun k => nilValued (pinger.Meta s) k = true) order)
                  = length (filter (fun k => nilValued (pinger.Meta s) k = true)
                                   (pinger.sort_Strings order))).
  { apply Permutation_length. apply filter_Permutation.
    symmetry. apply sort_Strings_perm. }
  rewrite Hperm. unfold formatmeta.estimatedLen.
  rewrite joinPairs_length in *.
  destruct (pinger.sort_Strings order) as [|k rest] eqn:Hk.
  - reflexivity.
  - set (keys := k :: rest) in *.
    pose proof (estimateSum_nonneg (pinger.Meta s) rest) as Hnn.
    assert (Hpos : 2 <= estimateSum (pinger.Meta s) keys).
    { subst keys. cbn [estimateSum]. unfold formatmeta.len.
      destruct (nilValued (pinger.Meta s) k); lia. }
    rewrite estimate_exact by lia. rewrite Z.add_0_l, Z.gtb_ltb.
    destruct (Z.ltb_spec 0 (estimateSum (pinger.Meta s) keys)); [|lia].
    unfold sub64. rewrite wrap64_small; [lia|].
    unfold in_int64, MinInt64, MaxInt64 in *. lia.
Qed.

Lemma FormatMeta_reserves_its_length_witness :
  pinger.range_order (pinger.Meta (withMeta meta_ba)) ["b"; "a"] /\
  formatmeta.estimatedLen ["b"; "a"] (withMeta meta_ba)
  + 5 * Z.of_nat (length (filter (fun k => nilValued meta_ba k = true) ["b"; "a"]))
  = formatmeta.len (pinger.FormatMeta ["b"; "a"] (withMeta meta_ba)).
Proof.
  assert (Hr : pinger.range_order (pinger.Meta (withMeta meta_ba)) ["b"; "a"]).
  { unfold pinger.range_order, withMeta, meta_ba. simpl.
    rewrite map_to_list_insert by reflexivity.
    rewrite map_to_list_singleton. reflexivity. }
  split; [exact Hr|].
  apply (FormatMeta_reserves_its_length (withMeta meta_ba) ["b"; "a"] Hr).
  vm_compute. reflexivity.
Defined.

(* ===================================================================== *)
(** ** Protocols and the registry *)
(* ===================================================================== *)

(** [NewProtocol] reads back the name [String] gives to a protocol
    exactly for the four declared protocols; the name of any other
    value, [unknown], is refused with an error quoting it. *)
Theorem NewProtocol_reads_back_String
        (mapToLower : string -> string) (p : Z) :
  (protocol.NewProtocol mapToLower (protocol.String p) = inl p
   <-> 0 <= p <= 3) /\
  (~ 0 <= p <= 3 ->
   protocol.NewProtocol mapToLower (protocol.String p)
   = inr {| protocol.protocolStr := "unknown" |} /\
   protocol.Error {| protocol.protocolStr := "unknown" |}
   = "protocol not supported: unknown").
Proof.
  assert (Hcases : p = 0 \/ p = 1 \/ p = 2 \/ p = 3 \/ ~ 0 <= p <= 3) by lia.
  destruct Hcases as [->|[->|[->|[->|Hout]]]].
  1-4: split; [split; [lia|reflexivity]|lia].
  assert (Hs : protocol.String p = "unknown").
  { unfold protocol.String, protocol.TCP, protocol.HTTP, protocol.HTTPS,
      protocol.UDP.
    destruct (Z.eqb_spec p 0); [lia|]. destruct (Z.eqb_spec p 1); [lia|].
    destruct (Z.eqb_spec p 2); [lia|]. destruct (Z.eqb_spec p 3); [lia|].
    reflexivity. }
  rewrite Hs. split.
  - split; [discriminate|]. intros H. contradiction.
  - intros _. split; reflexivity.
Qed.

Lemma NewProtocol_reads_back_String_witness :
  protocol.NewProtocol (fun s => s) (protocol.String 7)
  = inr {| protocol.protocolStr := "unknown" |}.
Proof.
  assert (H : ~ 0 <= 7 <= 3) by lia.
  exact (proj1 (proj2 (NewProtocol_reads_back_String (fun s => s) 7) H)).
Defined.

Lemma lower_upperByte (c : ascii) :
  strings.lowerByte (upperByte c) = strings.lowerByte c.
Proof.
  destruct c as [[] [] [] [] [] [] [] []]; reflexivity.
Qed.

Lemma upperByte_ascii (c : ascii) :
  strings.isASCIIByte (upperByte c) = strings.isASCIIByte c.
Proof.
  destruct c as [[] [] [] [] [] [] [] []]; reflexivity.
Qed.

Lemma ToLower_upperCased (mapToLower : string -> string) (s : string) :
  strings.isASCII s = true ->
  strings.ToLower mapToLower (upperCased s) = strings.ToLower mapToLower s.
Proof.
  intros Ha. unfold strings.ToLower.
  assert (Hu : strings.isASCII (upperCased s) = true).
  { unfold upperCased. induction s as [|c s IH]; [reflexivity|].
    cbn [strings.mapBytes strings.isASCII] in *. rewrite upperByte_ascii.
    apply andb_true_iff in Ha as [Hc Hs]. rewrite Hc. simpl. auto. }
  rewrite Ha, Hu. clear. unfold upperCased.
  induction s as [|c s IH]; [reflexivity|].
  cbn [strings.mapBytes]. now rewrite lower_upperByte, IH.
Qed.

(** [NewProtocol] does not look at the case of ASCII letters: a string
    of ASCII bytes and the same string in upper case name the same
    protocol, or are both refused. *)
Theorem NewProtocol_ignores_case
        (mapToLower : string -> string) (s : string) (p : Z) :
  strings.isASCII s = true ->
  (protocol.NewProtocol mapToLower (upperCased s) = inl p
   <-> protocol.NewProtocol mapToLower s = inl p).
Proof.
  intros Ha. unfold protocol.NewProtocol.
  rewrite (ToLower_upperCased mapToLower s Ha).
  repeat case_match; split; congruence.
Qed.

Lemma NewProtocol_ignores_case_witness :
  strings.isASCII "https" = true /\
  upperCased "https" = "HTTPS" /\
  protocol.NewProtocol (fun s => s) "HTTPS" = inl protocol.HTTPS.
Proof.
  split; [reflexivity|]. split; [reflexivity|].
  exact (proj2 (NewProtocol_ignores_case (fun s => s) "https" protocol.HTTPS
                  eq_refl) eq_refl).
Defined.

(** [Load] finds what [Register] stored last under a protocol, a
    registration under one protocol leaves the others as they were, and
    [Load] reports a protocol nobody registered as not found. *)
Theorem Register_then_Load {Factory : Type}
        (pinger : gmap Z Factory) (p q : Z) (f g : Factory) :
  protocol.Load Factory p (protocol.Register Factory p f pinger) = (Some f, true) /\
  protocol.Load Factory p
    (protocol.Register Factory p g (protocol.Register Factory p f pinger))
    = (Some g, true) /\
  (q <> p ->
   protocol.Load Factory q (protocol.Register Factory p f pinger)
   = protocol.Load Factory q pinger) /\
  (pinger !! q = None -> protocol.Load Factory q pinger = (None, false)).
Proof.
  unfold protocol.Load, protocol.Register. split; [|split; [|split]].
  - now rewrite lookup_insert_eq.
  - now rewrite lookup_insert_eq.
  - intros Hne. now rewrite lookup_insert_ne by congruence.
  - intros Hq. unfold protocol.Protocol. now rewrite Hq.
Qed.

Lemma Register_then_Load_witness :
  protocol.Load nat protocol.UDP (protocol.Register nat protocol.TCP 1%nat ∅)
  = (None, false).
Proof.
  assert (Hne : protocol.UDP <> protocol.TCP) by discriminate.
  pose proof (Register_then_Load (∅ : gmap Z nat) protocol.TCP protocol.UDP
                1%nat 1%nat) as (_ & _ & H3 & H4).
  rewrite (H3 Hne). exact (H4 eq_refl).
Defined.

(** Once [cli.Initialize] has run, every protocol that [NewProtocol]
    accepts has its factory in the registry, whatever was registered
    before: [Load] cannot miss. *)
Theorem accepted_protocols_are_registered {Factory : Type}
        (mapToLower : string -> string)
        (http https tcp udp : Factory) (pinger : gmap Z Factory)
        (s : string) (p : Z) :
  protocol.NewProtocol mapToLower s = inl p ->
  protocol.Load Factory p (protocol.Initialize Factory http https tcp udp pinger)
  = (Some (registeredFor http https tcp udp p), true).
Proof.
  intros Hp.
  assert (Hcases : p = 0 \/ p = 1 \/ p = 2 \/ p = 3).
  { unfold protocol.NewProtocol in Hp.
    repeat case_match; inversion Hp; subst;
      unfold protocol.TCP, protocol.HTTP, protocol.HTTPS, protocol.UDP; lia. }
  unfold protocol.Load, protocol.Initialize, protocol.Register,
    protocol.TCP, protocol.HTTP, protocol.HTTPS, protocol.UDP,
    protocol.Protocol.
  destruct Hcases as [ -> | [ -> | [ -> | -> ] ] ];
    repeat (rewrite lookup_insert_ne by discriminate);
    rewrite lookup_insert_eq; reflexivity.
Qed.

Lemma accepted_protocols_are_registered_witness :
  protocol.Load nat protocol.HTTPS
    (protocol.Initialize nat 1%nat 2%nat 3%nat 4%nat ∅) = (Some 2%nat, true).
Proof.
  exact (accepted_protocols_are_registered (fun s => s) 1%nat 2%nat 3%nat 4%nat ∅
           "HTTPS" protocol.HTTPS eq_refl).
Defined.

(* ===================================================================== *)
(** ** formatError *)
(* ===================================================================== *)

(** The equation [formatError] is written as in the source. *)
Lemma formatErr_eq (leafTimeout : string -> option bool) (err : errors.error) :
  format.formatErr leafTimeout err =
  if isDeadline err then "timeout"
  else match firstURLError err with
       | Some inner => format.formatErr leafTimeout inner
       | None => format.formatNetError leafTimeout err
       end.
Proof.
  assert (Hwalk : forall e,
             (fix asURL (e : errors.error) : option string :=
                match e with
                | errors.url_Error _ _ inner =>
                    Some (format.formatErr leafTimeout inner)
                | errors.Errorf_w _ inner => asURL inner
                | errors.net_OpError _ _ _ inner => asURL inner
                | _ => None
                end) e =
             format.formatErr leafTimeout <$> firstURLError e).
  { induction e; simpl; try reflexivity; exact IHe. }
  unfold isDeadline.
  destruct err; cbn [format.formatErr firstURLError];
    try rewrite Hwalk;
    repeat match goal with |- context [firstURLError ?e] =>
             destruct (firstURLError e); simpl end;
    reflexivity.
Qed.

Lemma isDeadline_wrapped (e : errors.error) :
  (forall pre, isDeadline (errors.Errorf_w pre e) = isDeadline e) /\
  (forall op net addr, isDeadline (errors.net_OpError op net addr e) = isDeadline e) /\
  (forall op u, isDeadline (errors.url_Error op u e) = isDeadline e).
Proof. repeat split. Qed.

(** Any error that wraps [context.DeadlineExceeded] or
    [os.ErrDeadlineExceeded], at whatever depth and behind whatever
    prefixes, is shown as [timeout]. *)
Theorem deadline_is_shown_as_timeout
        (leafTimeout : string -> option bool) (err : errors.error) :
  errors.Is err errors.context_DeadlineExceeded = true \/
  errors.Is err errors.os_ErrDeadlineExceeded = true ->
  format.formatError leafTimeout (Some err) = "timeout".
Proof.
  intros H. unfold format.formatError. rewrite formatErr_eq. unfold isDeadline.
  destruct H as [-> | ->]; [reflexivity|]. now rewrite orb_true_r.
Qed.

Lemma deadline_is_shown_as_timeout_witness :
  format.formatError (fun _ => None)
    (Some (errors.Errorf_w "read failed: "
             (errors.net_OpError "read" "udp" None errors.os_ErrDeadlineExceeded)))
  = "timeout".
Proof.
  exact (deadline_is_shown_as_timeout (fun _ => None)
           (errors.Errorf_w "read failed: "
              (errors.net_OpError "read" "udp" None errors.os_ErrDeadlineExceeded))
           (or_intror eq_refl)).
Defined.

(** What is shown for an error whose chain holds a [*url.Error] is what
    is shown for the error that one holds: the operation and the URL it
    quotes never reach the output. *)
Theorem url_error_is_shown_by_its_cause
        (leafTimeout : string -> option bool) (err inner : errors.error) :
  firstURLError err = Some inner ->
  format.formatError leafTimeout (Some err)
  = format.formatError leafTimeout (Some inner).
Proof.
  intros Hu. unfold format.formatError.
  rewrite (formatErr_eq leafTimeout err), Hu.
  assert (Hd : isDeadline err = isDeadline inner).
  { revert Hu. induction err; simpl; try discriminate; intros Hu.
    - destruct (isDeadline_wrapped err) as (H1 & _). rewrite H1. auto.
    - destruct (isDeadline_wrapped err) as (_ & H2 & _). rewrite H2. auto.
    - injection Hu as ->. destruct (isDeadline_wrapped inner) as (_ & _ & H3).
      apply H3. }
  rewrite Hd. destruct (isDeadline inner) eqn:E; [|reflexivity].
  rewrite formatErr_eq, E. reflexivity.
Qed.

Lemma url_error_is_shown_by_its_cause_witness :
  format.formatError (fun _ => None)
    (Some (errors.url_Error "Get" "http://example.org:80" scenario.refused))
  = format.formatError (fun _ => None) (Some scenario.refused).
Proof.
  exact (url_error_is_shown_by_its_cause (fun _ => None)
           (errors.url_Error "Get" "http://example.org:80" scenario.refused)
           scenario.refused eq_refl).
Defined.

(** A [*net.OpError] that is not a timeout is shown by the text of the
    error it holds alone: the operation, network and address are left
    out, and so is any prefix wrapped around the [*net.OpError]. *)
Theorem op_error_is_shown_by_its_cause
        (leafTimeout : string -> option bool)
        (op net pre : string) (addr : option string) (cause : errors.error) :
  isDeadline cause = false ->
  firstURLError cause = None ->
  format.Timeout leafTimeout cause = false ->
  format.formatError leafTimeout (Some (errors.net_OpError op net addr cause))
  = errors.Error cause /\
  format.formatError leafTimeout
    (Some (errors.Errorf_w pre (errors.net_OpError op net addr cause)))
  = errors.Error cause.
Proof.
  intros Hd Hu Ht. unfold format.formatError.
  rewrite !formatErr_eq.
  destruct (isDeadline_wrapped cause) as (_ & H2 & _).
  destruct (isDeadline_wrapped (errors.net_OpError op net addr cause)) as (H1 & _).
  rewrite H1, H2, Hd. cbn [firstURLError]. rewrite Hu.
  unfold format.formatNetError. cbn [format.As_netError format.implementsNetError].
  cbn [format.Timeout format.As_OpError]. rewrite Ht. split; reflexivity.
Qed.

Lemma op_error_is_shown_by_its_cause_witness :
  format.formatError (fun _ => None) (Some scenario.refused) = "connection refused".
Proof.
  exact (proj1 (op_error_is_shown_by_its_cause (fun _ => None)
                  "dial" "tcp" "" (Some "192.0.2.1:80")
                  (errors.New "connection refused") eq_refl eq_refl eq_refl)).
Defined.

(* ===================================================================== *)
(** ** What every probe returns *)
(* ===================================================================== *)

(** Every attempt of every probe returns a result that is connected
    exactly when it carries no error, and whose duration is the time
    from the start of the attempt to its return. *)
Theorem probe_result_connected_iff_no_error
        (SplitHostPort : string -> option (string * string))
        (ctx : context.Context) (now : time.Time) :
  (forall (p : tcp.Ping) (world : tcp.Network),
      let r := tcp.Ping_Ping p ctx now world in
      (pinger.Connected r.2 = true <-> pinger.Error r.2 = None) /\
      pinger.Duration r.2 = time.Sub r.1 now) /\
  (forall (p : udp.Ping) (env : udp.Env),
      let r := udp.Ping_Ping p ctx now env in
      (pinger.Connected r.2 = true <-> pinger.Error r.2 = None) /\
      pinger.Duration r.2 = time.Sub r.1 now) /\
  (forall (p : http.Ping) (env : http.Env),
      let r := http.Ping_Ping SplitHostPort p ctx now env in
      (pinger.Connected r.2 = true <-> pinger.Error r.2 = None) /\
      pinger.Duration r.2 = time.Sub r.1 now).
Proof.
  split; [|split].
  - intros p world. unfold tcp.Ping_Ping, tcp.DialWithDialer. cbv zeta.
    destruct (tcp.tls p).
    + destruct (tcp.tlsResult _) as [c|tlsErr].
      * simpl. split; [split; reflexivity|reflexivity].
      * destruct (tcp.DialContext _ _ _ _ _ _) as [[t r] hs].
        destruct r; simpl; (split; [split; congruence|reflexivity]).
    + destruct (tcp.DialContext _ _ _ _ _ _) as [[t r] hs].
      destruct r; simpl; (split; [split; congruence|reflexivity]).
  - intros p env. unfold udp.Ping_Ping. cbv zeta.
    destruct (udp.resolve _ _ _ _) as [[t1 dns] [ip|e]]; cbv beta iota;
      [|simpl; split; [split; congruence|reflexivity]].
    destruct (udp.dial _ _ _) as [t2 [u|e]]; cbv beta iota;
      [|simpl; split; [split; congruence|reflexivity]].
    destruct (udp.write _ _) as [t3 [n|e]]; cbv beta iota;
      [|simpl; split; [split; congruence|reflexivity]].
    destruct (udp.read _ _ _) as [t4 [n'|e]]; simpl;
      (split; [split; congruence|reflexivity]).
  - intros p env. unfold http.Ping_Ping. cbv zeta.
    destruct (http.newRequestErr env) as [e|];
      [simpl; split; [split; congruence|reflexivity]|].
    destruct (http.Do _ _ _ _ _ _ _ _) as [[t r] s]. cbv beta iota.
    destruct r as [resp|e]; [|simpl; split; [split; congruence|reflexivity]].
    destruct (http.copyBody _ _ _) as [t' [n [e|]]]; simpl;
      (split; [split; congruence|reflexivity]).
Qed.

Lemma WithTimeout_deadline (ctx : context.Context) (now d : Z) :
  exists dl done,
    context.deadline (context.WithTimeout ctx now d) = Some dl /\
    context.doneAt (context.WithTimeout ctx now d) = Some done /\
    done <= dl /\ dl <= now + d.
Proof.
  unfold context.WithTimeout, context.doneAt. simpl.
  destruct (context.cancelAt ctx) as [c|], (context.deadline ctx) as [e|]; simpl;
    eexists; eexists; (split; [reflexivity|split; [reflexivity|lia]]).
Qed.

Lemma await_bounded {A} (ctx : context.Context) (now latency : Z)
      (r : A) (onDone : errors.error -> A) (done : Z) :
  context.doneAt ctx = Some done -> 0 <= latency ->
  now <= (context.await ctx now latency r onDone).1 <= Z.max now done /\
  (done < now + latency ->
   (context.await ctx now latency r onDone).2 = onDone (context.Err ctx)).
Proof.
  intros Hd Hl. unfold context.await. rewrite Hd.
  destruct (Z.ltb_spec done (now + latency)); simpl; split; try lia; auto.
Qed.

(** An HTTP attempt hands its context to both network calls it makes: it
    returns no later than the instant the context is done, and when the
    context is done before [client.Do] returns, the result is not
    connected and carries the error of the context inside a
    [*url.Error]. *)
Theorem http_attempt_bounded
        (SplitHostPort : string -> option (string * string))
        (p : http.Ping) (ctx : context.Context) (now : time.Time)
        (env : http.Env) :
  0 <= http.doLatency env -> 0 <= http.bodyLatency env ->
  exists done,
    context.doneAt (http.attemptCtx p ctx now) = Some done /\
    (http.Ping_Ping SplitHostPort p ctx now env).1 <= Z.max now done /\
    (http.newRequestErr env = None -> done < now + http.doLatency env ->
     pinger.Connected (http.Ping_Ping SplitHostPort p ctx now env).2 = false /\
     pinger.Error (http.Ping_Ping SplitHostPort p ctx now env).2 =
       Some (errors.url_Error (http.method p) (http.url p)
               (context.Err (http.attemptCtx p ctx now)))).
Proof.
  intros Hdo Hbody.
  assert (Hex : exists done, context.doneAt (http.attemptCtx p ctx now) = Some done).
  { unfold http.attemptCtx.
    destruct (WithTimeout_deadline ctx now
                (match http.option_ p with
                 | Some o => if pinger.Timeout o >? 0 then pinger.Timeout o
                             else pinger.DefaultTimeout
                 | None => pinger.DefaultTimeout
                 end)) as (dl & done & _ & Hd & _).
    exists done. exact Hd. }
  destruct Hex as [done Hd]. exists done. split; [exact Hd|].
  unfold http.Ping_Ping, http.Do.
  destruct (http.newRequestErr env) as [e|]; simpl; [split; [lia|discriminate]|].
  pose proof (await_bounded (http.attemptCtx p ctx now) now (http.doLatency env)
                (http.doResult env)
                (fun e => net.Fail (errors.url_Error (http.method p) (http.url p) e))
                done Hd Hdo) as [Hb1 Hcut1].
  destruct (context.await (http.attemptCtx p ctx now) now (http.doLatency env)
              (http.doResult env) _) as [t r].
  simpl in Hb1, Hcut1.
  destruct r as [resp|e].
  - pose proof (await_bounded (http.attemptCtx p ctx now) t (http.bodyLatency env)
                  (http.bodyN env, http.bodyErr env)
                  (fun e => (http.bodyNWhenDone env, Some e))
                  done Hd Hbody) as [Hb2 _].
    unfold http.copyBody.
    destruct (context.await (http.attemptCtx p ctx now) t (http.bodyLatency env)
                (http.bodyN env, http.bodyErr env) _) as [t' [n err]].
    simpl in Hb2.
    assert (Hno : done < now + http.doLatency env -> False).
    { intros Hlt. specialize (Hcut1 Hlt). discriminate. }
    destruct err; simpl; (split; [lia|intros _ Hlt; destruct (Hno Hlt)]).
  - simpl. split; [lia|]. intros _ Hlt. specialize (Hcut1 Hlt).
    injection Hcut1 as ->. split; reflexivity.
Qed.

Lemma http_attempt_bounded_witness :
  exists done,
    context.doneAt (http.attemptCtx (scenario.httpProbe true)
                      scenario.schedulerCtx 0) = Some done /\
    (http.Ping_Ping scenario.splitLastColon (scenario.httpProbe true)
                    scenario.schedulerCtx 0 scenario.wholeBody).1 <= Z.max 0 done.
Proof.
  assert (H1 : 0 <= http.doLatency scenario.wholeBody) by (vm_compute; discriminate).
  assert (H2 : 0 <= http.bodyLatency scenario.wholeBody) by (vm_compute; discriminate).
  destruct (http_attempt_bounded scenario.splitLastColon (scenario.httpProbe true)
              scenario.schedulerCtx 0 scenario.wholeBody H1 H2)
    as (done & Hd & Hb & _).
  exists done. split; [exact Hd|exact Hb].
Defined.

(** A UDP attempt returns no later than the deadline of its context plus
    the time its one write takes, which runs under no deadline; when the
    host is an IP literal, no lookup is made, the DNS duration is zero
    and the address is that literal joined to the port. *)
Theorem udp_attempt_bounded
        (p : udp.Ping) (ctx : context.Context) (now : time.Time) (env : udp.Env) :
  0 <= udp.lookupLatency env -> 0 <= udp.dialLatency env ->
  0 <= udp.writeLatency env -> 0 <= udp.readLatency env ->
  let pingCtx := context.WithTimeout ctx now (udp.attemptTimeout p) in
  (exists dl,
      context.deadline pingCtx = Some dl /\
      (udp.Ping_Ping p ctx now env).1 <= Z.max now dl + udp.writeLatency env) /\
  (forall ip, udp.ParseIP env (udp.host p) = Some ip ->
              pinger.DNSDuration (udp.Ping_Ping p ctx now env).2 = 0 /\
              pinger.Address (udp.Ping_Ping p ctx now env).2 =
                net.JoinHostPort ip (Itoa (udp.port p))).
Proof.
  intros Hl Hd Hw Hr pingCtx. split.
  - destruct (WithTimeout_deadline ctx now (udp.attemptTimeout p))
      as (dl & done & Hdl & Hdone & Hle & _).
    fold pingCtx in Hdl, Hdone. exists dl. split; [exact Hdl|].
    unfold udp.Ping_Ping. fold pingCtx.
    assert (Hres : now <= (udp.resolve p pingCtx now env).1.1 <= Z.max now done).
    { unfold udp.resolve. destruct (udp.ParseIP env (udp.host p)); [simpl; lia|].
      pose proof (await_bounded pingCtx now (udp.lookupLatency env)
                    (udp.lookupResult env) (fun e => net.Fail e) done Hdone Hl)
        as [Hb _].
      destruct (context.await pingCtx now (udp.lookupLatency env)
                  (udp.lookupResult env) _) as [t r].
      simpl in Hb. destruct r as [[|ip ips]|e]; simpl; lia. }
    destruct (udp.resolve p pingCtx now env) as [[t1 dns] [ip|e]];
      simpl in Hres; simpl; [|lia].
    pose proof (await_bounded pingCtx t1 (udp.dialLatency env) (udp.dialResult env)
                  (fun e => net.Fail (errors.net_OpError "dial" "udp" None e))
                  done Hdone Hd) as [Hb2 _].
    unfold udp.dial.
    destruct (context.await pingCtx t1 (udp.dialLatency env) (udp.dialResult env) _)
      as [t2 [u|e]]; simpl in Hb2; simpl; [|lia].
    unfold udp.write.
    destruct (udp.writeResult env) as [n|e]; simpl; [|lia].
    unfold udp.read, net.readWithDeadline, udp.readDeadline. rewrite Hdl.
    destruct (Z.ltb_spec dl (t2 + udp.writeLatency env + udp.readLatency env));
      simpl; [lia|].
    destruct (udp.readResult env); simpl; lia.
  - intros ip Hip. unfold udp.Ping_Ping. fold pingCtx. cbv zeta.
    unfold udp.resolve. rewrite Hip. cbv beta iota.
    destruct (udp.dial pingCtx now env) as [t2 [u|e]]; cbv beta iota;
      [|simpl; auto].
    destruct (udp.write t2 env) as [t3 [n|e]]; cbv beta iota; [|simpl; auto].
    destruct (udp.read _ t3 env) as [t4 [n'|e]]; simpl; auto.
Qed.

Lemma udp_attempt_bounded_witness :
  (udp.Ping_Ping scenario.udpProbe scenario.schedulerCtx 0 scenario.silent).1
  <= Z.max 0 (5 * time.Second) + udp.writeLatency scenario.silent /\
  pinger.DNSDuration
    (udp.Ping_Ping scenario.udpProbe scenario.schedulerCtx 0 scenario.silent).2 = 0.
Proof.
  assert (H0 : 0 <= 0) by lia.
  assert (Hr : 0 <= udp.readLatency scenario.silent) by (vm_compute; discriminate).
  destruct (udp_attempt_bounded scenario.udpProbe scenario.schedulerCtx 0
              scenario.silent H0 H0 H0 Hr) as [(dl & Hdl & Hb) Hlit].
  injection Hdl as <-. split; [exact Hb|].
  exact (proj1 (Hlit "8.8.8.8" eq_refl)).
Defined.

Lemma tcp_plain_attempt_bounded_witness :
  exists done,
    context.doneAt (tcp.attemptCtx scenario.plainProbe scenario.schedulerCtx 0)
      = Some done /\
    (tcp.Ping_Ping scenario.plainProbe scenario.schedulerCtx 0
                   (scenario.only "example.org:80" scenario.blackHole)).1
    <= Z.max 0 done.
Proof.
  assert (Hl : 0 <= tcp.dialLatency scenario.blackHole) by (vm_compute; discriminate).
  destruct (tcp_plain_attempt_bounded scenario.plainProbe scenario.schedulerCtx 0
              (scenario.only "example.org:80" scenario.blackHole) eq_refl Hl)
    as (done & Hd & Hb & _).
  exists done. split; [exact Hd|exact Hb].
Defined.

(* ===================================================================== *)
(** ** Expired attempts on the output line *)
(* ===================================================================== *)

Lemma formatErr_deadline (leafTimeout : string -> option bool) (err : errors.error) :
  isDeadline err = true -> format.formatErr leafTimeout err = "timeout".
Proof. intros H. now rewrite formatErr_eq, H. Qed.

(** A UDP attempt that has sent its payload and gets no datagram by the
    read deadline returns at that deadline, not connected, with an error
    that the output line shows as [timeout]. *)
Theorem udp_silence_is_a_timeout
        (leafTimeout : string -> option bool)
        (p : udp.Ping) (ctx : context.Context) (now : time.Time) (env : udp.Env)
        (t1 t2 t3 : time.Time) (dns : Z) (ip : string) (sent : Z) :
  let pingCtx := context.WithTimeout ctx now (udp.attemptTimeout p) in
  udp.resolve p pingCtx now env = (t1, dns, net.Ok ip) ->
  udp.dial pingCtx t1 env = (t2, net.Ok tt) ->
  udp.write t2 env = (t3, net.Ok sent) ->
  udp.readDeadline p pingCtx t2 < t3 + udp.readLatency env ->
  let r := udp.Ping_Ping p ctx now env in
  r.1 = Z.max t3 (udp.readDeadline p pingCtx t2) /\
  pinger.Connected r.2 = false /\
  format.formatError leafTimeout (pinger.Error r.2) = "timeout".
Proof.
  intros pingCtx Hres Hdial Hwrite Hlate r. subst r.
  unfold udp.Ping_Ping. fold pingCtx. cbv zeta.
  rewrite Hres. cbv beta iota. rewrite Hdial. cbv beta iota.
  rewrite Hwrite. cbv beta iota.
  unfold udp.read, net.readWithDeadline.
  destruct (Z.ltb_spec (udp.readDeadline p pingCtx t2) (t3 + udp.readLatency env));
    [|lia].
  simpl. split; [reflexivity|]. split; [reflexivity|].
  first [reflexivity | apply formatErr_deadline; reflexivity].
Qed.

Lemma udp_silence_is_a_timeout_witness :
  let r := udp.Ping_Ping scenario.udpProbe scenario.schedulerCtx 0 scenario.silent in
  r.1 = 5 * time.Second /\
  pinger.Connected r.2 = false /\
  format.formatError (fun _ => None) (pinger.Error r.2) = "timeout".
Proof.
  assert (Hlate : udp.readDeadline scenario.udpProbe
                    (context.WithTimeout scenario.schedulerCtx 0
                       (udp.attemptTimeout scenario.udpProbe)) 0
                  < 0 + udp.readLatency scenario.silent) by reflexivity.
  exact (udp_silence_is_a_timeout (fun _ => None) scenario.udpProbe
           scenario.schedulerCtx 0 scenario.silent 0 0 0 0 "8.8.8.8" 4
           eq_refl eq_refl eq_refl Hlate).
Defined.

(** When nobody cancels the run and the deadline of the attempt passes
    while the TCP dial, or the HTTP request, is in flight, the attempt
    is not connected and the output line shows its error as [timeout]. *)
Theorem expired_call_is_a_timeout
        (leafTimeout : string -> option bool)
        (SplitHostPort : string -> option (string * string))
        (ctx : context.Context) (now : time.Time) :
  context.cancelAt ctx = None ->
  (forall (p : tcp.Ping) (world : tcp.Network) (dl : Z),
      tcp.tls p = false ->
      context.deadline (tcp.attemptCtx p ctx now) = Some dl ->
      dl < now + tcp.dialLatency (world "tcp" (target p)) ->
      let r := tcp.Ping_Ping p ctx now world in
      pinger.Connected r.2 = false /\
      format.formatError leafTimeout (pinger.Error r.2) = "timeout") /\
  (forall (p : http.Ping) (env : http.Env) (dl : Z),
      http.newRequestErr env = None ->
      context.deadline (http.attemptCtx p ctx now) = Some dl ->
      dl < now + http.doLatency env ->
      let r := http.Ping_Ping SplitHostPort p ctx now env in
      pinger.Connected r.2 = false /\
      format.formatError leafTimeout (pinger.Error r.2) = "timeout").
Proof.
  intros Hc. split.
  - intros p world dl Htls Hdl Hlate r. subst r.
    assert (Hcancel : context.cancelAt (tcp.attemptCtx p ctx now) = None)
      by exact Hc.
    unfold tcp.Ping_Ping. rewrite Htls.
    unfold tcp.DialContext. fold (target p). cbv zeta.
    unfold context.await, context.doneAt, context.Err.
    rewrite Hcancel, Hdl. simpl.
    destruct (Z.ltb_spec dl (now + tcp.dialLatency (world "tcp" (target p))));
      [|lia].
    simpl. split; [reflexivity|].
    first [reflexivity | apply formatErr_deadline; reflexivity].
  - intros p env dl Hreq Hdl Hlate r. subst r.
    assert (Hcancel : context.cancelAt (http.attemptCtx p ctx now) = None).
    { unfold http.attemptCtx, context.WithTimeout. simpl. exact Hc. }
    unfold http.Ping_Ping, http.Do. rewrite Hreq.
    unfold context.await, context.doneAt, context.Err.
    rewrite Hcancel, Hdl. simpl.
    destruct (Z.ltb_spec dl (now + http.doLatency env)); [|lia].
    simpl. split; [reflexivity|].
    first [reflexivity | apply formatErr_deadline; reflexivity].
Qed.

Lemma expired_call_is_a_timeout_witness :
  let r := tcp.Ping_Ping scenario.plainProbe scenario.schedulerCtx 0
                         (scenario.only "example.org:80" scenario.blackHole) in
  pinger.Connected r.2 = false /\
  format.formatError (fun _ => None) (pinger.Error r.2) = "timeout".
Proof.
  assert (Hlate : 5 * time.Second < 0 + tcp.dialLatency scenario.blackHole)
    by reflexivity.
  exact (proj1 (expired_call_is_a_timeout (fun _ => None) scenario.splitLastColon
                  scenario.schedulerCtx 0 eq_refl)
               scenario.plainProbe
               (scenario.only "example.org:80" scenario.blackHole)
               (5 * time.Second) eq_refl eq_refl Hlate).
Defined.

(* ===================================================================== *)
(** ** The metadata and the trace of an HTTP attempt *)
(* ===================================================================== *)

Lemma sorted_bytes_status (order : list string) :
  order ≡ₚ ["bytes"; "status"] ->
  pinger.sort_Strings order = ["bytes"; "status"].
Proof.
  intros Hp. rewrite (sort_Strings_order_irrelevant _ _ Hp). reflexivity.
Qed.

(** The metadata an HTTP attempt that got a response puts on its output
    line: the byte count when the body was not empty, then the status
    code, whatever the order the map yields them in. *)
Theorem http_meta_on_the_line
        (SplitHostPort : string -> option (string * string))
        (p : http.Ping) (ctx : context.Context) (now : time.Time)
        (env : http.Env) (resp : http.Response) (order : list string) :
  http.newRequestErr env = None ->
  let actx := http.attemptCtx p ctx now in
  let done := http.Do SplitHostPort p actx now env (http.trace_ p) now
                      http.initial in
  done.1.2 = net.Ok resp ->
  let stats := (http.Ping_Ping SplitHostPort p ctx now env).2 in
  let n := (http.copyBody actx done.1.1 env).2.1 in
  pinger.range_order (pinger.Meta stats) order ->
  pinger.FormatMeta order stats =
  if n >? 0
  then "bytes=" +:+ Itoa n +:+ " status=" +:+ Itoa (http.StatusCode resp)
  else "status=" +:+ Itoa (http.StatusCode resp).
Proof.
  intros Hreq actx done Hdone stats n. subst stats n.
  unfold http.Ping_Ping. rewrite Hreq. cbv zeta. fold actx. fold done.
  destruct done as [[t r] s]. simpl in Hdone. subst r. cbv beta iota.
  change ((t, net.Ok resp, s).1.1) with t.
  destruct (http.copyBody actx t env) as [t' [n err]]. cbv beta iota.
  change ((t', (n, err)).2.1) with n.
  assert (Hmeta : forall stats,
             pinger.Meta stats =
             (if n >? 0
              then <["bytes" := Some (pinger.Int n)]>
                     (<["status" := Some (pinger.Int (http.StatusCode resp))]> ∅)
              else <["status" := Some (pinger.Int (http.StatusCode resp))]> ∅) ->
             pinger.range_order (pinger.Meta stats) order ->
             pinger.FormatMeta order stats =
             if n >? 0
             then "bytes=" +:+ Itoa n +:+ " status=" +:+ Itoa (http.StatusCode resp)
             else "status=" +:+ Itoa (http.StatusCode resp)).
  { intros stats Hm Hr. rewrite FormatMeta_join by exact Hr.
    unfold pinger.range_order in Hr. rewrite Hm in *.
    destruct (n >? 0).
    - rewrite map_to_list_insert in Hr by reflexivity.
      rewrite map_to_list_insert, map_to_list_empty in Hr by reflexivity.
      simpl in Hr. rewrite (sorted_bytes_status order Hr).
      unfold spec_joinPairs, spec_renderPair. cbn [map String.concat].
      rewrite lookup_insert_eq.
      rewrite lookup_insert_ne by discriminate. rewrite lookup_insert_eq.
      simpl. rewrite ?string_app_assoc. reflexivity.
    - rewrite map_to_list_insert, map_to_list_empty in Hr by reflexivity.
      simpl in Hr. apply Permutation_singleton_r in Hr. subst order.
      unfold spec_joinPairs, spec_renderPair. cbn.
      rewrite lookup_insert_eq. reflexivity. }
  destruct err as [e|]; cbv beta iota; intros Hr; apply Hmeta;
    try exact Hr; simpl; destruct (n >? 0); reflexivity.
Qed.

Lemma http_meta_on_the_line_witness :
  pinger.FormatMeta ["status"; "bytes"]
    (http.Ping_Ping scenario.splitLastColon (scenario.httpProbe true)
                    scenario.schedulerCtx 0 scenario.wholeBody).2
  = "bytes=1256 status=200".
Proof.
  assert (Hr : pinger.range_order
                 (pinger.Meta
                    (http.Ping_Ping scenario.splitLastColon (scenario.httpProbe true)
                       scenario.schedulerCtx 0 scenario.wholeBody).2)
                 ["status"; "bytes"]).
  { unfold pinger.range_order.
    change (pinger.Meta _)
      with (<["bytes" := Some (pinger.Int 1256)]>
              (<["status" := Some (pinger.Int 200)]>
                 (∅ : gmap string (option pinger.Stringer)))).
    rewrite map_to_list_insert by reflexivity.
    rewrite map_to_list_insert, map_to_list_empty by reflexivity.
    apply perm_swap. }
  exact (http_meta_on_the_line scenario.splitLastColon (scenario.httpProbe true)
           scenario.schedulerCtx 0 scenario.wholeBody
           {| http.StatusCode := 200 |} ["status"; "bytes"]
           eq_refl eq_refl Hr).
Defined.

Lemma fire_events {S : Type} (hook : time.Time -> httptrace.Event -> S -> S)
      (from upto : time.Time) (sched : httptrace.Schedule) (s : S)
      {B : Type} (view : S -> B) (step : B -> httptrace.Event -> B) :
  (forall now ev s, view (hook now ev s) = step (view s) ev) ->
  view (httptrace.fire hook from upto sched s) =
  fold_left step (firedEvents from upto sched) (view s).
Proof.
  intros Hstep. revert s. unfold firedEvents.
  induction sched as [|[delay ev] rest IH]; intros s; [reflexivity|].
  cbn [httptrace.fire]. rewrite filter_cons. cbn [fst].
  destruct (from + delay <=? upto); simpl.
  - rewrite IH, Hstep. reflexivity.
  - apply IH.
Qed.

Lemma fold_orb_existsb (f : httptrace.Event -> bool) (l : list httptrace.Event)
      (b : bool) :
  fold_left (fun acc ev => acc || f ev) l b = b || existsb f l.
Proof.
  revert b. induction l as [|x l IH]; intros b; simpl.
  - now rewrite orb_false_r.
  - rewrite IH. now rewrite orb_assoc.
Qed.

(** What a traced HTTP attempt that issued its request reports from the
    hooks that fired before [client.Do] returned: the trace is marked as
    TLS exactly when a TLS handshake was started, and the address is the
    host of the connection attempt started last, empty when none was. *)
Theorem traced_http_reports_what_fired
        (SplitHostPort : string -> option (string * string))
        (p : http.Ping) (ctx : context.Context) (now : time.Time)
        (env : http.Env) :
  http.trace_ p = true ->
  http.newRequestErr env = None ->
  let actx := http.attemptCtx p ctx now in
  let done := http.Do SplitHostPort p actx now env true now http.initial in
  let fired := firedEvents now done.1.1 (http.doTrace env) in
  let stats := (http.Ping_Ping SplitHostPort p ctx now env).2 in
  pinger.Address stats = lastConnectHost SplitHostPort "" fired /\
  exists t,
    pinger.Extra stats = Some (pinger.ExtraTrace t) /\
    trace.tls t = existsb isTLSHandshakeStart fired /\
    trace.address t = pinger.Address stats.
Proof.
  intros Htr Hreq actx done fired stats.
  assert (Haddr : trace.address (http.t_ done.2) =
                  lastConnectHost SplitHostPort "" fired).
  { subst done fired. unfold http.Do.
    destruct (context.await actx now (http.doLatency env) (http.doResult env) _)
      as [t r]. cbn [fst snd].
    rewrite (fire_events (http.installed SplitHostPort true now) now t
               (http.doTrace env) http.initial
               (fun s => trace.address (http.t_ s))
               (fun host ev =>
                  match ev with
                  | httptrace.ConnectStart _ addr =>
                      match SplitHostPort addr with
                      | Some (h, _) => h
                      | None => addr
                      end
                  | _ => host
                  end)); [reflexivity|].
    intros now' ev s. destruct ev; reflexivity. }
  assert (Htls : trace.tls (http.t_ done.2) = existsb isTLSHandshakeStart fired).
  { subst done fired. unfold http.Do.
    destruct (context.await actx now (http.doLatency env) (http.doResult env) _)
      as [t r]. cbn [fst snd].
    rewrite (fire_events (http.installed SplitHostPort true now) now t
               (http.doTrace env) http.initial
               (fun s => trace.tls (http.t_ s))
               (fun b ev => b || isTLSHandshakeStart ev)).
    - rewrite fold_orb_existsb. reflexivity.
    - intros now' ev s. destruct ev; simpl;
        rewrite ?orb_false_r, ?orb_true_r; reflexivity. }
  subst stats. unfold http.Ping_Ping. rewrite Hreq, Htr. cbv zeta.
  fold actx. fold done. rewrite <- Haddr, <- Htls.
  destruct done as [[t r] s]. cbv beta iota. cbn [fst snd].
  destruct r as [resp|e]; [|simpl; split; [reflexivity|eauto]].
  destruct (http.copyBody actx t env) as [t' [n err]]. cbv beta iota.
  destruct err; simpl; (split; [reflexivity|]);
    eexists; (split; [reflexivity|split; reflexivity]).
Qed.

Lemma traced_http_reports_what_fired_witness :
  let stats := (http.Ping_Ping scenario.splitLastColon (scenario.httpProbe true)
                               scenario.schedulerCtx 0 scenario.wholeBody).2 in
  pinger.Address stats = "93.184.216.34" /\
  exists t, pinger.Extra stats = Some (pinger.ExtraTrace t) /\ trace.tls t = false.
Proof.
  intros stats.
  destruct (traced_http_reports_what_fired scenario.splitLastColon
              (scenario.httpProbe true) scenario.schedulerCtx 0 scenario.wholeBody
              eq_refl eq_refl) as (Ha & t & He & Ht & _).
  split; [exact Ha|]. exists t. split; [exact He|exact Ht].
Defined.

(** [Result.Avg] returns 0 without dividing when no probe succeeded;
    otherwise, for a sum that is not negative, it is the quotient
    rounded down, and [Failed] and the successes add up to the probes
    counted. *)
Theorem Result_Avg_is_guarded_quotient (result : pinger.Result) :
  (pinger.SuccessCounter result = 0 -> pinger.Avg result = 0) /\
  (0 < pinger.SuccessCounter result ->
   0 <= pinger.TotalDuration result <= MaxInt64 ->
   pinger.Avg result * pinger.SuccessCounter result <= pinger.TotalDuration result
   /\ pinger.TotalDuration result
      < (pinger.Avg result + 1) * pinger.SuccessCounter result) /\
  (0 <= pinger.SuccessCounter result <= pinger.Counter result ->
   pinger.Counter result <= MaxInt64 ->
   pinger.Failed result + pinger.SuccessCounter result = pinger.Counter result).
Proof.
  unfold pinger.Avg, pinger.Failed. split; [|split].
  - intros ->. reflexivity.
  - intros Hn Ht. destruct (Z.eqb_spec (pinger.SuccessCounter result) 0); [lia|].
    unfold div64. rewrite Z.quot_div_nonneg by lia.
    set (T := pinger.TotalDuration result) in *.
    set (k := pinger.SuccessCounter result) in *.
    pose proof (Z.div_pos T k ltac:(lia) ltac:(lia)) as Hq0.
    pose proof (Z.mul_div_le T k ltac:(lia)) as Hq1.
    pose proof (Z.mul_succ_div_gt T k ltac:(lia)) as Hq2.
    assert (Hle : T / k <= T) by (apply Z.div_le_upper_bound; nia).
    rewrite wrap64_small by (unfold in_int64, MinInt64, MaxInt64 in *; lia).
    split; lia.
  - intros Hs Hc. unfold sub64.
    rewrite wrap64_small by (unfold in_int64, MinInt64, MaxInt64 in *; lia). lia.
Qed.

Lemma Result_Avg_is_guarded_quotient_witness :
  pinger.Avg {| pinger.Counter := 3; pinger.SuccessCounter := 0;
                pinger.MinDuration := 0; pinger.MaxDuration := 0;
                pinger.TotalDuration := 0 |} = 0.
Proof.
  exact (proj1 (Result_Avg_is_guarded_quotient
                  {| pinger.Counter := 3; pinger.SuccessCounter := 0;
                     pinger.MinDuration := 0; pinger.MaxDuration := 0;
                     pinger.TotalDuration := 0 |}) eq_refl).
Defined.

Lemma wrap64_shift (x k : Z) : wrap64 (x + 2 ^ 64 * k) = wrap64 x.
Proof.
  unfold wrap64. replace (x + 2 ^ 64 * k + 2 ^ 63) with (x + 2 ^ 63 + k * 2 ^ 64) by lia.
  now rewrite Z_mod_plus_full.
Qed.

Lemma wrap64_mod (x : Z) : exists k, wrap64 x = x + 2 ^ 64 * k.
Proof.
  unfold wrap64. exists (- ((x + 2 ^ 63) / 2 ^ 64)).
  pose proof (Z.div_mod (x + 2 ^ 63) (2 ^ 64) ltac:(lia)). lia.
Qed.

Lemma time_Sub_in_range (a b : Z) : in_int64 (time.Sub a b).
Proof.
  unfold time.Sub, in_int64, MinInt64, MaxInt64.
  destruct (Z.gtb_spec (a - b) (2 ^ 63 - 1)); [lia|].
  destruct (Z.ltb_spec (a - b) (- 2 ^ 63)); lia.
Qed.

Lemma fire_app {S : Type} (hook : time.Time -> httptrace.Event -> S -> S)
      (from upto : time.Time) (l1 l2 : httptrace.Schedule) (s : S) :
  httptrace.fire hook from upto (l1 ++ l2) s =
  httptrace.fire hook from upto l2 (httptrace.fire hook from upto l1 s).
Proof.
  revert s. induction l1 as [|[d ev] l1 IH]; intros s; [reflexivity|].
  simpl. destruct (from + d <=? upto); apply IH.
Qed.

Lemma fire_keepsPhases (SplitHostPort : string -> option (string * string))
      (start from upto : time.Time) (post : httptrace.Schedule)
      (s : http.hookState) :
  Forall (fun de : Z * httptrace.Event => keepsPhases de.2 = true) post ->
  phasesSum (http.t_ (httptrace.fire (http.hook SplitHostPort start) from upto post s))
  = phasesSum (http.t_ s).
Proof.
  intros Hall. revert s. induction Hall as [|[d ev] post Hev Hpost IH]; intros s.
  - reflexivity.
  - cbn [httptrace.fire]. destruct (from + d <=? upto); [|apply IH].
    rewrite IH. simpl in Hev. destruct ev; try discriminate; reflexivity.
Qed.

Lemma hook_WroteRequest_sum (SplitHostPort : string -> option (string * string))
      (start now : time.Time) (s : http.hookState) :
  wrap64 (phasesSum (http.t_ (http.hook SplitHostPort start now
                                        httptrace.WroteRequest s)))
  = time.Sub now start.
Proof.
  unfold phasesSum. simpl. unfold sub64.
  set (e := time.Sub now start).
  set (a := trace.DNSDuration (http.t_ s)).
  set (b := trace.ConnectDuration (http.t_ s)).
  set (c := trace.TLSDuration (http.t_ s)).
  destruct (wrap64_mod (e - c)) as [k1 H1]. rewrite H1.
  destruct (wrap64_mod (e + 2 ^ 64 * k1 - c - b)) as [k2 H2].
  replace (e - c + 2 ^ 64 * k1 - b) with (e + 2 ^ 64 * k1 - c - b) by lia.
  rewrite H2.
  destruct (wrap64_mod (e + 2 ^ 64 * k1 - c - b + 2 ^ 64 * k2 - a)) as [k3 H3].
  rewrite H3.
  replace (a + b + c + (e + 2 ^ 64 * k1 - c - b + 2 ^ 64 * k2 - a + 2 ^ 64 * k3))
    with (e + 2 ^ 64 * (k1 + k2 + k3)) by lia.
  rewrite wrap64_shift. apply wrap64_small. apply time_Sub_in_range.
Qed.

(** In the trace of an HTTP attempt, once the request has been written
    and as long as no later hook ends another lookup, connection or
    handshake, the durations of DNS, connect, TLS and request add up,
    in 64-bit arithmetic, to the time from the start of the attempt to
    the writing of the request: whatever the first three do not cover
    is charged to the request. *)
Theorem traced_phases_add_up
        (SplitHostPort : string -> option (string * string))
        (p : http.Ping) (ctx : context.Context) (now : time.Time)
        (env : http.Env)
        (pre post : httptrace.Schedule) (wrote : Z) :
  http.trace_ p = true ->
  http.newRequestErr env = None ->
  http.doTrace env = pre ++ (wrote, httptrace.WroteRequest) :: post ->
  Forall (fun de : Z * httptrace.Event => keepsPhases de.2 = true) post ->
  let actx := http.attemptCtx p ctx now in
  let done := http.Do SplitHostPort p actx now env true now http.initial in
  now + wrote <= done.1.1 ->
  exists t,
    pinger.Extra (http.Ping_Ping SplitHostPort p ctx now env).2
      = Some (pinger.ExtraTrace t) /\
    wrap64 (phasesSum t) = time.Sub (now + wrote) now.
Proof.
  intros Htr Hreq Hsched Hpost actx done Hfired.
  assert (Hsum : wrap64 (phasesSum (http.t_ done.2)) = time.Sub (now + wrote) now).
  { subst done. unfold http.Do in *.
    destruct (context.await actx now (http.doLatency env) (http.doResult env) _)
      as [t r]. cbn [fst snd] in *.
    rewrite Hsched, fire_app. cbn [httptrace.fire].
    destruct (Z.leb_spec (now + wrote) t); [|lia].
    unfold http.installed.
    rewrite fire_keepsPhases by exact Hpost.
    apply hook_WroteRequest_sum. }
  unfold http.Ping_Ping. rewrite Hreq, Htr. cbv zeta. fold actx. fold done.
  destruct done as [[t r] s]. cbv beta iota. cbn [fst snd] in Hsum.
  destruct r as [resp|e]; [|simpl; eauto].
  destruct (http.copyBody actx t env) as [t' [n err]]. cbv beta iota.
  destruct err; simpl; eexists; (split; [reflexivity|exact Hsum]).
Qed.

Lemma traced_phases_add_up_witness :
  exists t,
    pinger.Extra (http.Ping_Ping scenario.splitLastColon (scenario.httpProbe true)
                    scenario.schedulerCtx 0 scenario.wholeBody).2
      = Some (pinger.ExtraTrace t) /\
    wrap64 (phasesSum t) = time.Sub (0 + 16 * scenario.Millisecond) 0.
Proof.
  assert (Hpost : Forall (fun de : Z * httptrace.Event => keepsPhases de.2 = true)
                         [(40 * scenario.Millisecond, httptrace.GotFirstResponseByte)]).
  { repeat constructor. }
  assert (Hfired : 0 + 16 * scenario.Millisecond
                   <= (http.Do scenario.splitLastColon (scenario.httpProbe true)
                         (http.attemptCtx (scenario.httpProbe true)
                            scenario.schedulerCtx 0)
                         0 scenario.wholeBody true 0 http.initial).1.1).
  { vm_compute. discriminate. }
  exact (traced_phases_add_up scenario.splitLastColon (scenario.httpProbe true)
           scenario.schedulerCtx 0 scenario.wholeBody
           [(1 * scenario.Millisecond, httptrace.DNSStart);
            (4 * scenario.Millisecond, httptrace.DNSDone);
            (4 * scenario.Millisecond, httptrace.ConnectStart "tcp" "93.184.216.34:80");
            (15 * scenario.Millisecond,
             httptrace.ConnectDone "tcp" "93.184.216.34:80" None)]
           [(40 * scenario.Millisecond, httptrace.GotFirstResponseByte)]
           (16 * scenario.Millisecond)
           eq_refl eq_refl eq_refl Hpost Hfired).
Defined.

Lemma tcp_plain_cancelled_not_counted_witness :
  let world := scenario.only "example.org:80" scenario.blackHole in
  1 * time.Second < 0 + tcp.dialLatency scenario.blackHole /\
  counted (tcp.Ping_Ping scenario.plainProbe stoppedCtx 0 world).2 = false.
Proof.
  intros world.
  assert (Hlate : 1 * time.Second < 0 + tcp.dialLatency scenario.blackHole)
    by reflexivity.
  assert (Hd : forall d,
             context.deadline (tcp.attemptCtx scenario.plainProbe stoppedCtx 0)
             = Some d -> 1 * time.Second <= d).
  { intros d [= <-]. vm_compute. discriminate. }
  split; [exact Hlate|].
  exact (proj2 (proj2 (tcp_plain_cancelled_not_counted scenario.plainProbe
                         stoppedCtx 0 world (1 * time.Second)
                         eq_refl eq_refl Hd Hlate))).
Defined.

(* ===================================================================== *)
(** ** Attempts reached by Stop() *)
(* ===================================================================== *)






